(** * Control_DA_components.ipynb: the Lorenz 96 data-assimilation notebook

    The notebook is a sequential script: it assigns parameters, calls helper
    functions imported from the [tools] package and plots.  The development
    has these parts.

    - [Py]: the Python and numpy values the script computes with.  A Python
      [float] is an IEEE 754 binary64 number, so it is a primitive [float]
      here and every product, quotient and rounding is the one Python does.
    - [Tools]: the imported helpers, whose code is not in the notebook, as
      the notebook's text describes them.
    - [Notebook]: the code cells as functions in a small state monad (the
      world holds numpy's global random generator and the log of the calls
      made), parametrised by the imported helpers.
    - [Ipynb] and [Source]: the file itself, cell by cell and line by line,
      and a lexer and a data-flow analysis over the Python text, for the
      properties of what the file contains.
*)

From Stdlib Require Import ZArith List String Ascii Bool Arith Lia Floats.
From Stdlib Require Uint63.
Import ListNotations.

Set Warnings "-inexact-float,-register-all".

(* ===================================================================== *)
(** * Python and numpy values *)
(* ===================================================================== *)

Module Py.

Local Open Scope float_scope.

(** A one-dimensional array of floats, and a two-dimensional one stored
    row by row: [x[i][k]] is numpy's [x[i,k]]. *)
Definition vec := list float.
Definition mat := list (list float).

(** An integer used where a float is expected ([i*delta], [100*deltat]). *)
Definition float_of_Z (z : Z) : float :=
  if (z <? 0)%Z then - of_uint63 (Uint63.of_Z (- z))
  else of_uint63 (Uint63.of_Z z).

Definition float_of_nat (i : nat) : float := float_of_Z (Z.of_nat i).

(** The integer part [m * 2^e] of a finite binary64 number, rounded towards
    zero, towards minus infinity and towards plus infinity. *)
Definition magnitude_floor (m : positive) (e : Z) : Z :=
  if (0 <=? e)%Z then Z.shiftl (Zpos m) e else Z.shiftr (Zpos m) (- e).

Definition magnitude_ceil (m : positive) (e : Z) : Z :=
  if (0 <=? e)%Z then Z.shiftl (Zpos m) e
  else (- Z.shiftr (Zneg m) (- e))%Z.

(** Python's [int(x)] on a float: truncation; it raises on nan and on the
    infinities ([None]). *)
Definition int (x : float) : option Z :=
  match Prim2SF x with
  | S754_zero _ => Some 0%Z
  | S754_finite false m e => Some (magnitude_floor m e)
  | S754_finite true m e => Some (- magnitude_floor m e)%Z
  | S754_infinity _ | S754_nan => None
  end.

(** C's [ceil] followed by the conversion to an index, as numpy's arange
    computes its length. *)
Definition ceil (x : float) : option Z :=
  match Prim2SF x with
  | S754_zero _ => Some 0%Z
  | S754_finite false m e => Some (magnitude_ceil m e)
  | S754_finite true m e => Some (- magnitude_floor m e)%Z
  | S754_infinity _ | S754_nan => None
  end.

(** [np.arange(start, stop, step)] on floats.  numpy takes the length
    [ceil((stop - start)/step)], stores [start] and [start + step], and
    fills the rest with [start + i*delta] where [delta] is the difference
    of the two stored values.  A length that is not a number raises. *)
Definition arange_item (start next : float) (i : nat) : float :=
  match i with
  | O => start
  | S O => next
  | _ => start + float_of_nat i * (next - start)
  end.

Definition arange (start stop step : float) : option vec :=
  match ceil ((stop - start) / step) with
  | Some len => Some (map (arange_item start (start + step)) (seq 0 (Z.to_nat len)))
  | None => None
  end.

(** [np.repeat(v, n)], [np.zeros(n)], [np.ones(n,)], [np.eye(n)]. *)
Definition repeat (v : float) (n : Z) : vec := List.repeat v (Z.to_nat n).
Definition zeros (n : Z) : vec := repeat 0 n.
Definition ones (n : Z) : vec := repeat 1 n.
Definition eye (n : Z) : mat :=
  map (fun i => map (fun j => if Nat.eqb i j then 1 else 0) (seq 0 (Z.to_nat n)))
      (seq 0 (Z.to_nat n)).

(** Shapes.  A list of rows is a numpy array only when its rows have one
    length. *)
Definition has_shape (a : mat) (rows cols : nat) : Prop :=
  List.length a = rows /\ Forall (fun row => List.length row = cols) a.

Definition shape_is (a : mat) (rows cols : nat) : bool :=
  Nat.eqb (List.length a) rows
  && forallb (fun row => Nat.eqb (List.length row) cols) a.

Definition ncols (a : mat) : nat :=
  match a with [] => O | row :: _ => List.length row end.

(** A three-dimensional array of shape [(a, b, c)], kept as its [c] planes
    of shape [(a, b)]: numpy's [p[i,k,j]] is entry [(i, k)] of plane [j].
    [np.zeros((a, b, c))]: *)
Definition arr3 := list mat.

Definition zeros3 (a b c : Z) : arr3 :=
  List.repeat (List.repeat (zeros b) (Z.to_nat a)) (Z.to_nat c).

(** [x[i] += d] on a one-dimensional array; an index out of range raises
    IndexError ([None]). *)
Fixpoint iadd_item (x : vec) (i : nat) (d : float) : option vec :=
  match x, i with
  | [], _ => None
  | v :: r, O => Some ((v + d) :: r)
  | v :: r, S j => option_map (cons v) (iadd_item r j d)
  end.

(** [a[:,k]]: column [k]; IndexError when [k] is out of range. *)
Fixpoint column (a : mat) (k : nat) : option vec :=
  match a with
  | [] => Some []
  | row :: rest =>
      match nth_error row k, column rest k with
      | Some v, Some c => Some (v :: c)
      | _, _ => None
      end
  end.

(** [a.T]. *)
Definition transpose (a : mat) : mat :=
  map (fun k => map (fun row => nth k row nan) a) (seq 0 (ncols a)).

(** What [set_plane] below checks of a plane. *)
Definition plane_dims (a b : nat) (plane : mat) : Prop :=
  List.length plane = a /\ ncols plane = b.

(** [p[:,:,j] = m].  numpy stores [m] when it has the shape of the plane
    (the only case modelled: a value that would need broadcasting is
    treated like one that does not fit) and raises otherwise, as it does
    for [j] out of range. *)
Fixpoint set_plane (p : arr3) (j : nat) (m : mat) : option arr3 :=
  match p, j with
  | [], _ => None
  | old :: rest, O =>
      if shape_is m (List.length old) (ncols old) then Some (m :: rest) else None
  | old :: rest, S j' => option_map (cons old) (set_plane rest j' m)
  end.

(** [np.diag] of a square matrix and [np.amax] of a vector; numpy's
    maximum propagates nan, and [amax] of an empty array raises. *)
Definition diag (a : mat) : vec :=
  map (fun i => nth i (nth i a []) nan) (seq 0 (Nat.min (List.length a) (ncols a))).

Definition fmax (x y : float) : float :=
  if is_nan x then x else if is_nan y then y else if x <? y then y else x.

Definition amax (x : vec) : option float :=
  match x with
  | [] => None
  | v :: r => Some (fold_left fmax r v)
  end.

End Py.


(* ===================================================================== *)
(** * The imported helpers *)
(* ===================================================================== *)

(** The notebook imports its numerical routines from the [tools] package,
    which it clones when it starts; their code is not in the file.  The
    definitions below follow what the notebook's text and comments say
    these routines compute. *)
Module Tools.

Import Py.
Local Open Scope float_scope.

Fixpoint zipw {A B C} (f : A -> B -> C) (a : list A) (b : list B) : list C :=
  match a, b with
  | x :: a', y :: b' => f x y :: zipw f a' b'
  | _, _ => []
  end.

Definition vadd : vec -> vec -> vec := zipw add.
Definition vsub : vec -> vec -> vec := zipw sub.
Definition vscale (c : float) (x : vec) : vec := map (mul c) x.
Definition msub : mat -> mat -> mat := zipw vsub.

Definition total (x : vec) : float := fold_left add x 0.
Definition dot (a b : vec) : float := total (zipw mul a b).
Definition matvec (h : mat) (x : vec) : vec := map (fun row => dot row x) h.

(** The L2 norm. *)
Definition norm2 (x : vec) : float := sqrt (dot x x).

(** Entry [(i, k)] and column [k] of a matrix, for indices in range. *)
Definition entry (a : mat) (i k : nat) : float := nth k (nth i a []) nan.
Definition col (a : mat) (k : nat) : vec := map (fun row => nth k row nan) a.

(** ** The model *)

(** The notebook gives the equation of the model,
    [dx_i/dt = (x_{i+1} - x_{i-2}) x_{i-1} - x_i + F], on a circle of [n]
    points. *)
Definition cyclic (x : vec) (i : Z) : float :=
  nth (Z.to_nat (i mod Z.of_nat (List.length x))) x nan.

Definition tendency (F : float) (x : vec) : vec :=
  map (fun i : nat =>
         let i := Z.of_nat i in
         (cyclic x (i + 1) - cyclic x (i - 2)) * cyclic x (i - 1) - cyclic x i + F)
      (seq 0 (List.length x)).

Definition rk4 (F deltat : float) (x : vec) : vec :=
  let k1 := tendency F x in
  let k2 := tendency F (vadd x (vscale (deltat / 2) k1)) in
  let k3 := tendency F (vadd x (vscale (deltat / 2) k2)) in
  let k4 := tendency F (vadd x (vscale deltat k3)) in
  vadd x (vscale (deltat / 6)
            (vadd (vadd k1 (vscale 2 k2)) (vadd (vscale 2 k3) k4))).

(** The classical fourth-order Runge-Kutta step above, iterated. *)
Fixpoint trajectory (step : vec -> vec) (count : nat) (x : vec) : list vec :=
  match count with
  | O => []
  | S c => x :: trajectory step c (step x)
  end.

(** Modelled from the spec: the integrator [lorenz96] of [tools.L96_model]
    is missing.  The spec calls its scheme Runge-Kutta-like and the notebook
    gives the equation; the classical fourth-order step is taken.  The
    first [discard] steps are dropped and [int(tf/deltat) + 1] states are
    returned, one per column. *)
Definition lorenz96 (x0 : vec) (tf deltat : float) (discard : Z) (F : float) : mat :=
  match int (tf / deltat) with
  | Some k =>
      let start := Nat.iter (Z.to_nat discard) (rk4 F deltat) x0 in
      let states := trajectory (rk4 F deltat) (Z.to_nat (k + 1)) start in
      map (fun i => map (fun x => nth i x nan) states) (seq 0 (List.length x0))
  | None => []
  end.

(** The derivative of the tendency at [x], applied to [dx], and the
    derivative of the Runge-Kutta step, each of its stages differentiated in
    turn; the step carries the state along with the perturbation. *)
Definition tendency_tl (x dx : vec) : vec :=
  map (fun i : nat =>
         let i := Z.of_nat i in
         (cyclic dx (i + 1) - cyclic dx (i - 2)) * cyclic x (i - 1)
         + (cyclic x (i + 1) - cyclic x (i - 2)) * cyclic dx (i - 1)
         - cyclic dx i)
      (seq 0 (List.length x)).

Definition rk4_tl (F deltat : float) (xd : vec * vec) : vec * vec :=
  let (x, dx) := xd in
  let k1 := tendency F x in
  let d1 := tendency_tl x dx in
  let x2 := vadd x (vscale (deltat / 2) k1) in
  let k2 := tendency F x2 in
  let d2 := tendency_tl x2 (vadd dx (vscale (deltat / 2) d1)) in
  let x3 := vadd x (vscale (deltat / 2) k2) in
  let k3 := tendency F x3 in
  let d3 := tendency_tl x3 (vadd dx (vscale (deltat / 2) d2)) in
  let x4 := vadd x (vscale deltat k3) in
  let d4 := tendency_tl x4 (vadd dx (vscale deltat d3)) in
  (rk4 F deltat x,
   vadd dx (vscale (deltat / 6)
              (vadd (vadd d1 (vscale 2 d2)) (vadd (vscale 2 d3) d4)))).

Fixpoint trajectory_tl (step : vec * vec -> vec * vec) (count : nat) (xd : vec * vec)
  : list vec :=
  match count with
  | O => []
  | S c => snd xd :: trajectory_tl step c (step xd)
  end.

(** Modelled from the spec: the tangent-linear model the notebook's formula
    names [TL] is missing.  It is taken to be the derivative of [lorenz96]
    along the run started at [x], applied to [Delta_x]: column [k] is the
    perturbation after [k] steps. *)
Definition tangent_linear (Delta_x x : vec) (F lin_t deltat : float) : mat :=
  match int (lin_t / deltat) with
  | Some k =>
      let states := trajectory_tl (rk4_tl F deltat) (Z.to_nat (k + 1)) (x, Delta_x) in
      map (fun i => map (fun d => nth i d nan) states) (seq 0 (List.length x))
  | None => []
  end.

(** ** The background-error covariance *)

(** The difference of the states [lag] steps apart at time [k], over the
    square root of two. *)
Definition lagged_difference (x : mat) (lag k : nat) : vec :=
  map (fun row => (nth (k + lag) row nan - nth k row nan) / sqrt 2) x.

(** The sample mean and the sample covariance of a list of samples of [n]
    variables, the correlation matrix of a covariance matrix, and a matrix
    scaled to a largest variance. *)
Definition mean (samples : list vec) (i : nat) : float :=
  total (map (fun e => nth i e nan) samples) / float_of_nat (List.length samples).

Definition covariance (n : nat) (samples : list vec) : mat :=
  map (fun i =>
         map (fun j =>
                total (map (fun e => (nth i e nan - mean samples i)
                                     * (nth j e nan - mean samples j)) samples)
                / float_of_nat (List.length samples - 1))
             (seq 0 n))
      (seq 0 n).

Definition correlation (b : mat) : mat :=
  map (fun i => map (fun j => entry b i j / (sqrt (entry b i i) * sqrt (entry b j j)))
                    (seq 0 (List.length b)))
      (seq 0 (List.length b)).

Definition scaled (max_var : option float) (b : mat) : mat :=
  match max_var, amax (diag b) with
  | Some v, Some top => map (vscale (v / top)) b
  | _, _ => b
  end.

Section Covariance.

(** The times [t] of the run at which a sample is taken, given the number
    of columns of the run, the lag and [sample_size]: the notebook does not
    say how they are chosen. *)
Variable sample_times : nat -> nat -> nat -> list nat.

Definition lagged_differences (x : mat) (lag sample_size : nat) : list vec :=
  map (lagged_difference x lag) (sample_times (ncols x) lag sample_size).

(** Modelled from the spec: [getBcanadian] of [tools.cov] is missing.  The
    notebook says that the Canadian Quick method estimates B as the sample
    covariance of the differences of time-lagged forecasts taken from one
    long run, [(x(t+T) - x(t))/sqrt(2)] with [T] the lag, that [max_var],
    when given, scales B to that largest variance, and that [sample_size]
    is the number of samples.  It returns B and its correlation matrix. *)
Definition getBcanadian (x : mat) (lag : Z) (max_var : option float) (sample_size : Z)
  : mat * mat :=
  let samples := lagged_differences x (Z.to_nat lag) (Z.to_nat sample_size) in
  let b := scaled max_var (covariance (List.length x) samples) in
  (b, correlation b).

End Covariance.

(** The first [sample_size] times that have a column [lag] steps later. *)
Definition first_times (columns lag sample_size : nat) : list nat :=
  seq 0 (Nat.min sample_size (columns - lag)).

(** ** The linearisation error *)

Section LinError.

(** The nonlinear model and the tangent-linear model, each giving one
    state per time step, as columns. *)
Variable NL : vec -> float -> float -> Z -> float -> mat.
Variable TL : vec -> vec -> float -> float -> float -> mat.

(** Modelled from the spec: [compute_lin_error] of [tools.diag] is
    missing.  The notebook defines the linearisation error as
    [|| NL(x + Dx, t) - NL(x, t) - TL(Dx, t) ||] in the L2 norm, the
    difference of two nonlinear runs started [Dx] apart against the
    tangent-linear model applied to [Dx]; the function returns the error
    for every time step together with the two differences. *)
Definition compute_lin_error (Delta_x x : vec) (F lin_t deltat : float)
  : vec * mat * mat :=
  let NLdiff := msub (NL (vadd x Delta_x) lin_t deltat 0 F) (NL x lin_t deltat 0 F) in
  let TLdiff := TL Delta_x x F lin_t deltat in
  let err := msub NLdiff TLdiff in
  (map (fun k => norm2 (col err k)) (seq 0 (ncols err)), NLdiff, TLdiff).

End LinError.

(** ** Observations *)

Section Obs.

(** The weight an observation with a footprint of [footprint] grid
    points gives to the point [offset] places from its centre (the
    notebook says a truncated Gaussian, without its width). *)
Variable weight : Z -> Z -> float.

Definition unit_row (n : Z) (i : Z) : vec :=
  map (fun j => if (Z.of_nat j =? i)%Z then 1 else 0) (seq 0 (Z.to_nat n)).

(** The least distance on the circle of [n] points from [c] to [j]. *)
Definition offset (n c j : Z) : Z :=
  let d := ((j - c) mod n)%Z in
  if (2 * d <=? n)%Z then d else (d - n)%Z.

Definition footprint_row (n footprint c : Z) : vec :=
  map (fun j =>
         let d := offset n c (Z.of_nat j) in
         if (2 * Z.abs d <? footprint)%Z then weight footprint d else 0)
      (seq 0 (Z.to_nat n)).

Definition upto (k : Z) : list Z := map Z.of_nat (seq 0 (Z.to_nat k)).

(** The options the notebook lists for [obsgrid]. *)
Definition obsgrids : list string :=
  ["all"; "1010"; "landsea"; "foot_cent"; "foot_6"]%string.

(** Modelled from the spec: [createH] of [tools.obs] is missing.  The
    notebook lists its options: ['all'] observes every variable ([n]
    observations), ['1010'] every other variable ([n/2]), ['landsea']
    half of the domain ([n/2]), ['foot_cent'] is one weighted average
    of grid points at the centre of the domain, and ['foot_6'] is six
    equally distributed weighted averages of neighbouring points, with
    [footprint] the number of points each one sees.  Any other option
    is an error. *)
Definition createH (obsgrid : string) (n footprint : Z) : option (Z * mat) :=
  if String.eqb obsgrid "all" then
    Some (n, map (unit_row n) (upto n))
  else if String.eqb obsgrid "1010" then
    Some ((n / 2)%Z, map (fun k => unit_row n (2 * k)) (upto (n / 2)))
  else if String.eqb obsgrid "landsea" then
    Some ((n / 2)%Z, map (unit_row n) (upto (n / 2)))
  else if String.eqb obsgrid "foot_cent" then
    Some (1%Z, [footprint_row n footprint (n / 2)])
  else if String.eqb obsgrid "foot_6" then
    Some (6%Z, map (fun k => footprint_row n footprint (k * n / 6)) (upto 6))
  else None.

(** numpy's generator.  [seeded seed g] is the state the noise is drawn
    from when the helper is given [seed] and finds the global generator in
    the state [g]: the notebook calls [seed] the random number seed and does
    not say what the helper does with it, so nothing is assumed of this
    function.  [standard_normal] is one standard normal draw. *)
Variable G : Type.
Variable seeded : Z -> G -> G.
Variable standard_normal : G -> float * G.

Fixpoint draws (count : nat) (g : G) : vec * G :=
  match count with
  | O => ([], g)
  | S c => let (v, g') := standard_normal g in
           let (r, g'') := draws c g' in
           (v :: r, g'')
  end.

(** Every [period]-th entry of a list, from the first. *)
Fixpoint every {A} (period skip : nat) (l : list A) : list A :=
  match l with
  | [] => []
  | a :: r =>
      match skip with
      | O => a :: every period (Nat.pred period) r
      | S k => every period k r
      end
  end.

(** The noise of observation [k]: the [k]-th block of [p] draws from [g]. *)
Fixpoint noise (p k : nat) (g : G) : vec :=
  match k with
  | O => fst (draws p g)
  | S k' => noise p k' (snd (draws p g))
  end.

(** The observations of the states [xs], one after the other, with the
    one operator [h] and noise of variance [var_obs]. *)
Fixpoint observe (h : mat) (sd : float) (xs : list vec) (g : G) : list vec * G :=
  match xs with
  | [] => ([], g)
  | x :: r =>
      let (e, g') := draws (List.length h) g in
      let (ys, g'') := observe h sd r g' in
      (vadd (matvec h x) (vscale sd e) :: ys, g'')
  end.

(** Modelled from the spec: [gen_obs] of [tools.obs] is missing.  The
    notebook says that it gives the observation times, the synthetic
    observations and the observation-error covariance matrix, that
    observations are available every [period_obs] time steps with error
    variance [var_obs], consistent with the truth through the operator
    [H], which is the same at each observation time, and that [seed] is
    the random number seed.  The noise is drawn from [seeded seed g], and
    the generator is left as the draws leave it.  Observation [k] is column
    [k] of [y]. *)
Definition gen_obs (t : vec) (xtrue : mat) (period_obs : Z) (H : mat)
  (var_obs seed : Z) (g : G) : (vec * mat * mat) * G :=
  let period := Z.to_nat period_obs in
  let tobs := every period 0 t in
  let states := every period 0 (map (col xtrue) (seq 0 (ncols xtrue))) in
  let (ys, g') := observe H (sqrt (float_of_Z var_obs)) states (seeded seed g) in
  let y := map (fun i => map (fun o => nth i o nan) ys) (seq 0 (List.length H)) in
  let R := map (vscale (float_of_Z var_obs)) (eye (Z.of_nat (List.length H))) in
  ((tobs, y, R), g').

End Obs.

(** ** A generator to run the notebook with *)

(** numpy's generator is not modelled.  Where a run of the notebook needs
    one, this linear congruential generator stands in for it: its state is
    an integer, a draw maps the state to a number in [[-3, 3]], and
    [multivariate_normal] adds one draw per variable to the mean (it does
    not look at the covariance). *)
Definition lcg_next (g : Z) : Z := ((g * 1103515245 + 12345) mod 2147483648)%Z.

Definition lcg_normal (g : Z) : float * Z :=
  (float_of_Z (g mod 6001 - 3000) / 1000, lcg_next g).

Fixpoint lcg_rows (mean : vec) (count : nat) (g : Z) : mat * Z :=
  match count with
  | O => ([], g)
  | S c => let (e, g') := draws Z lcg_normal (List.length mean) g in
           let (rows, g'') := lcg_rows mean c g' in
           (vadd mean e :: rows, g'')
  end.

Definition lcg_multivariate_normal (mean : vec) (cov : mat) (size : Z) (g : Z)
  : mat * Z :=
  lcg_rows mean (Z.to_nat size) g.

(** [createH] with equal weights over a footprint, as the function of the
    notebook's call (an option it does not know gives no observation). *)
Definition createH_flat (obsgrid : string) (n footprint : Z) : Z * mat :=
  match createH (fun _ _ => 1) obsgrid n footprint with
  | Some r => r
  | None => (0%Z, [])
  end.

End Tools.

(* ===================================================================== *)
(** * The code cells, as functions *)
(* ===================================================================== *)

(** What a run leaves behind besides its variables: the shell commands and
    IPython magics it executed and the calls it made to functions it did
    not define. *)
Inductive event : Type :=
| Shell (command : string)
| Magic (line : string)
| Call (callee : string).

Module Notebook.

Import Py.
Local Open Scope float_scope.

Section World.

(** The state of numpy's global random generator. *)
Variable G : Type.

Record world : Type := { rng : G; log : list event }.

(** A statement either raises ([None]) or yields a value and the world
    it leaves. *)
Definition M (A : Type) : Type := world -> option (A * world).

Definition ret {A} (a : A) : M A := fun w => Some (a, w).

Definition bind {A B} (c : M A) (k : A -> M B) : M B :=
  fun w => match c w with
           | Some (a, w') => k a w'
           | None => None
           end.

Definition emit (e : event) : M unit :=
  fun w => Some (tt, {| rng := rng w; log := log w ++ [e] |}).

(** A value of a Python operation that may raise. *)
Definition lift {A} (o : option A) : M A :=
  fun w => match o with
           | Some a => Some (a, w)
           | None => None
           end.

(** A call to an imported function that takes its arguments and gives a
    result, and one that also draws from the global generator. *)
Definition call {A} (name : string) (result : A) : M A :=
  bind (emit (Call name)) (fun _ => ret result).

Definition call_random {A} (name : string) (f : G -> A * G) : M A :=
  bind (emit (Call name))
       (fun _ w => let (a, g) := f (rng w) in Some (a, {| rng := g; log := log w |})).

(** [for i in range(count)], started at [i]. *)
Fixpoint for_range {S} (body : nat -> S -> M S) (i count : nat) (s : S) : M S :=
  match count with
  | O => ret s
  | Datatypes.S c => bind (body i s) (for_range body (Datatypes.S i) c)
  end.

End World.

Arguments ret {G A} a.
Arguments bind {G A B} c k.
Arguments emit {G} e.
Arguments lift {G A} o.
Arguments call {G A} name result.
Arguments call_random {G A} name f.
Arguments for_range {G S} body i count s.
Arguments rng {G} w.
Arguments log {G} w.

Declare Scope nb_scope.
Delimit Scope nb_scope with nb.
Notation "x <- c ;; k" := (bind c (fun x => k))
  (at level 61, c at next level, right associativity) : nb_scope.
Notation "c ;;; k" := (bind c (fun _ => k))
  (at level 61, right associativity) : nb_scope.
Local Open Scope nb_scope.

(** The variables each code cell leaves in the notebook's namespace. *)
Record model_vars : Type :=
  { n : Z; F : float; deltat : float; tf : float; t : vec; x0 : vec;
    discard : Z; xtrue : mat }.

Record sample_vars : Type :=
  { n_sample : Z; sample_t0 : mat; lin_t : float; prop_sample : arr3 }.

Record uni_vars : Type := { times : list Z; var1D : Z }.

Record multi_vars : Type := { vars2D : list Z }.

Record linerr_vars : Type :=
  { Delta_x : vec; lin_error : vec; NLdiff : mat; TLdiff : mat }.

Record cov_vars : Type :=
  { lag : Z; max_var : option float; sample_size : Z; xB : mat;
    B : mat; Bcorr : mat; mycmap : string; vs : list float }.

Record obs_vars : Type :=
  { obsgrid : string; period_obs : Z; var_obs : Z; seed : Z; footprint : Z;
    p : Z; H : mat; tobs : vec; y : mat; R : mat }.

Record namespace : Type :=
  { ns_model : model_vars; ns_sample : sample_vars; ns_uni : uni_vars;
    ns_multi : multi_vars; ns_linerr : linerr_vars; ns_cov : cov_vars;
    ns_obs : obs_vars }.

Section Cells.

Variable G : Type.

(** numpy's [np.random.multivariate_normal(mean, cov, size)], which draws
    from the global generator. *)
Variable multivariate_normal : vec -> mat -> Z -> G -> mat * G.

(** The functions imported from [tools].  Their code is not part of the
    notebook; each is a function of its arguments, and [gen_obs], which
    is given a seed, also acts on the global generator. *)
Variable lorenz96 : vec -> float -> float -> Z -> float -> mat.
Variable compute_lin_error : vec -> vec -> float -> float -> float -> vec * mat * mat.
Variable getBcanadian : mat -> Z -> option float -> Z -> mat * mat.
Variable createH : string -> Z -> Z -> Z * mat.
Variable gen_obs : vec -> mat -> Z -> mat -> Z -> Z -> G -> (vec * mat * mat) * G.

(** Cell 459fcd0c: fetch the [tools] package. *)
Definition cell_setup : M G unit :=
  emit (Shell "git clone https://github.com/darc-reading/darc-training-2025.git") ;;;
  emit (Magic "cd darc-training-2025").

(** Cell 96917134: parameters, the truth run and its plot. *)
Definition cell_model : M G model_vars :=
  let n := 12%Z in
  let F := 8.0 in
  let deltat := 0.025 in
  let tf := 5.0 in
  t <- lift (arange 0.0 (tf + deltat / float_of_Z 2) deltat) ;;
  let x0 := repeat 10.0 n in
  x0 <- lift (iadd_item x0 1 0.05) ;;
  let discard := 150%Z in
  xtrue <- call "lorenz96" (lorenz96 x0 tf deltat discard F) ;;
  emit (Call "plotL96") ;;;
  ret {| n := n; F := F; deltat := deltat; tf := tf; t := t; x0 := x0;
         discard := discard; xtrue := xtrue |}.

(** Cell c31f4c6c: a Gaussian sample and its propagation. *)
Definition propagate (m : model_vars) (sample_t0 : mat) (lin_t : float)
  (i : nat) (prop_sample : arr3) : M G arr3 :=
  x <- lift (column sample_t0 i) ;;
  r <- call "lorenz96" (lorenz96 x lin_t (deltat m) 0 (F m)) ;;
  lift (set_plane prop_sample i r).

Definition cell_sample (m : model_vars) : M G sample_vars :=
  let n_sample := 5000%Z in
  s <- call_random "np.random.multivariate_normal"
         (multivariate_normal (zeros (n m)) (eye (n m)) n_sample) ;;
  let sample_t0 := transpose s in
  let lin_t := float_of_Z 100 * deltat m in
  k <- lift (int (lin_t / deltat m)) ;;
  let prop_sample := zeros3 (n m) (k + 1) n_sample in
  prop_sample <- for_range (propagate m sample_t0 lin_t) 0 (Z.to_nat n_sample)
                   prop_sample ;;
  ret {| n_sample := n_sample; sample_t0 := sample_t0; lin_t := lin_t;
         prop_sample := prop_sample |}.

(** Cells bea86de0 and 821c2f22: density plots of the propagated sample. *)
Definition cell_uni (s : sample_vars) : M G uni_vars :=
  let times := [20; 30; 40; 50; 60; 70]%Z in
  let var1D := 5%Z in
  emit (Call "plotUniDensities") ;;;
  ret {| times := times; var1D := var1D |}.

Definition cell_multi (s : sample_vars) (u : uni_vars) : M G multi_vars :=
  let vars2D := [var1D u; 6%Z] in
  emit (Call "plotMultiDensities") ;;;
  ret {| vars2D := vars2D |}.

(** Cell 94ea489a: the linearisation error. *)
Definition cell_linerr (m : model_vars) (s : sample_vars) : M G linerr_vars :=
  let Delta_x := ones (n m) in
  x <- lift (column (xtrue m) 0) ;;
  r <- call "compute_lin_error"
         (compute_lin_error Delta_x x (F m) (lin_t s) (deltat m)) ;;
  emit (Call "plotL96_Linerr") ;;;
  ret {| Delta_x := Delta_x; lin_error := fst (fst r); NLdiff := snd (fst r);
         TLdiff := snd r |}.

(** Cell 3f374fbc: the background-error covariance. *)
Definition cell_cov (m : model_vars) : M G cov_vars :=
  lag <- lift (int (0.1 / deltat m)) ;;
  let max_var : option float := None in
  let sample_size := 10000%Z in
  xB <- call "lorenz96"
          (lorenz96 (x0 m) (float_of_Z sample_size * deltat m) (deltat m)
             (discard m) (F m)) ;;
  r <- call "getBcanadian" (getBcanadian xB lag max_var sample_size) ;;
  let mycmap := "BrBG"%string in
  lo <- lift (amax (diag (fst r))) ;;
  hi <- lift (amax (diag (fst r))) ;;
  let vs := [- lo; hi] in
  emit (Call "tileplotB") ;;;
  ret {| lag := lag; max_var := max_var; sample_size := sample_size; xB := xB;
         B := fst r; Bcorr := snd r; mycmap := mycmap; vs := vs |}.

(** Cell eefe6fc8: the observation operator and the observations. *)
Definition cell_obs (m : model_vars) : M G obs_vars :=
  let obsgrid := "1010"%string in
  let period_obs := 2%Z in
  let var_obs := 2%Z in
  let seed := 1%Z in
  let footprint := 3%Z in
  h <- call "createH" (createH obsgrid (n m) footprint) ;;
  emit (Call "plotH") ;;;
  o <- call_random "gen_obs"
         (gen_obs (t m) (xtrue m) period_obs (snd h) var_obs seed) ;;
  emit (Call "plotL96obs") ;;;
  ret {| obsgrid := obsgrid; period_obs := period_obs; var_obs := var_obs;
         seed := seed; footprint := footprint; p := fst h; H := snd h;
         tobs := fst (fst o); y := snd (fst o); R := snd o |}.

(** The cells in the order of the file. *)
Definition run_all : M G namespace :=
  cell_setup ;;;
  m <- cell_model ;;
  s <- cell_sample m ;;
  u <- cell_uni s ;;
  v <- cell_multi s u ;;
  l <- cell_linerr m s ;;
  c <- cell_cov m ;;
  o <- cell_obs m ;;
  ret {| ns_model := m; ns_sample := s; ns_uni := u; ns_multi := v;
         ns_linerr := l; ns_cov := c; ns_obs := o |}.

End Cells.

(** The events of a complete run, in order. *)
Definition pipeline_log : list event :=
  [Shell "git clone https://github.com/darc-reading/darc-training-2025.git";
   Magic "cd darc-training-2025";
   Call "lorenz96"; Call "plotL96";
   Call "np.random.multivariate_normal"]
  ++ List.repeat (Call "lorenz96") 5000
  ++ [Call "plotUniDensities"; Call "plotMultiDensities";
      Call "compute_lin_error"; Call "plotL96_Linerr";
      Call "lorenz96"; Call "getBcanadian"; Call "tileplotB";
      Call "createH"; Call "plotH"; Call "gen_obs"; Call "plotL96obs"].

(** The world after more events, the generator untouched. *)
Definition after {G} (w : world G) (events : list event) : world G :=
  {| rng := rng w; log := log w ++ events |}.

(** The values the parameter cell computes: the time grid, the initial
    state, and with them the variables of the cell. *)
Definition grid : vec :=
  match arange 0.0 (5.0 + 0.025 / float_of_Z 2) 0.025 with
  | Some ts => ts
  | None => []
  end.

Definition initial_state : vec :=
  match iadd_item (repeat 10.0 12) 1 0.05 with
  | Some x => x
  | None => []
  end.

(** What the notebook needs of the arrays it is given, so that its own
    indexing and slice assignments do not raise: [multivariate_normal]
    returns one row per draw, [lorenz96] one row per variable and one column
    per time step from [0] to [int(tf/deltat)], and [getBcanadian] a square
    matrix over the variables. *)
Definition draws_shape {G} (multivariate_normal : vec -> mat -> Z -> G -> mat * G) : Prop :=
  forall mean cov size g,
    has_shape (fst (multivariate_normal mean cov size g)) (Z.to_nat size) (List.length mean).

Definition run_shape (lorenz96 : vec -> float -> float -> Z -> float -> mat) : Prop :=
  forall x tf dt d F k,
    int (tf / dt) = Some k ->
    has_shape (lorenz96 x tf dt d F) (List.length x) (Z.to_nat (k + 1)).

Definition square_B (getBcanadian : mat -> Z -> option float -> Z -> mat * mat) : Prop :=
  forall x lag mv size,
    has_shape (fst (getBcanadian x lag mv size)) (List.length x) (List.length x).

(** The length of the runs of the sample cell, and the arguments of the
    long forecast run of the covariance cell. *)
Definition lin_t_value : float := float_of_Z 100 * 0.025.


Definition forecast_length : float := float_of_Z 10000 * 0.025.

Definition model (lorenz96 : vec -> float -> float -> Z -> float -> mat) : model_vars :=
  {| n := 12%Z; F := 8.0; deltat := 0.025; tf := 5.0; t := grid;
     x0 := initial_state; discard := 150%Z;
     xtrue := lorenz96 initial_state 5.0 0.025 150%Z 8.0 |}.

End Notebook.

(* ===================================================================== *)
(** * The file *)
(* ===================================================================== *)

Module Ipynb.

Local Open Scope string_scope.

(** The notebook is a JSON document.  A string is kept as it is written
    between its quotes in the file, escapes included. *)
Inductive json : Type :=
| JNull
| JNum (z : Z)
| JStr (raw : string)
| JArr (items : list json)
| JObj (fields : list (string * json)).

Definition file : json :=
  JObj [
    ("cells", JArr [
      JObj [
        ("cell_type", JStr "markdown");
        ("id", JStr "fd7b75c8-fea5-42c8-90e4-4237bd362725");
        ("metadata", JObj [
          ("lines_to_next_cell", JNum 2%Z);
          ("id", JStr "fd7b75c8-fea5-42c8-90e4-4237bd362725")]);
        ("source", JArr [
          JStr "# Exploration of DA building blocks using the Lorenz 96 model\n";
          JStr "AMF, March 2023, updated May 2025"])];
      JObj [
        ("cell_type", JStr "code");
        ("execution_count", JNum 2%Z);
        ("id", JStr "459fcd0c-33b8-4361-91c2-3756ecd80c9b");
        ("metadata", JObj [
          ("id", JStr "459fcd0c-33b8-4361-91c2-3756ecd80c9b");
          ("outputId", JStr "b057bba7-92e9-4bf1-e001-29906e39032e");
          ("colab", JObj [
            ("base_uri", JStr "https://localhost:8080/")])]);
        ("outputs", JArr [
          JObj [
            ("output_type", JStr "stream");
            ("name", JStr "stdout");
            ("text", JArr [
              JStr "Cloning into 'darc-training-2025'...\n";
              JStr "remote: Enumerating objects: 153, done.\u001b[K\n";
              JStr "remote: Counting objects: 100% (153/153), done.\u001b[K\n";
              JStr "remote: Compressing objects: 100% (113/113), done.\u001b[K\n";
              JStr "remote: Total 153 (delta 74), reused 105 (delta 39), pack-reused 0 (from 0)\u001b[K\n";
              JStr "Receiving objects: 100% (153/153), 4.64 MiB | 7.20 MiB/s, done.\n";
              JStr "Resolving deltas: 100% (74/74), done.\n";
              JStr "/content/darc-training-2025\n"])]]);
        ("source", JArr [
          JStr "!git clone https://github.com/darc-reading/darc-training-2025.git\n";
          JStr "%cd darc-training-2025"])];
      JObj [
        ("cell_type", JStr "markdown");
        ("id", JStr "03f737e5");
        ("metadata", JObj [
          ("id", JStr "03f737e5")]);
        ("source", JArr [
          JStr "# Introduction\n";
          JStr "During this course, we will be exploring the use of different DA algorithms\n";
          JStr "for estimating and forecasting the state of a system. To enable this, in\n";
          JStr "today's practical we will begin by setting up an idealised system in which\n";
          JStr "the true underlying dynamics are described by the Lorenz 96 model. From the\n";
          JStr "true dynamics we will then generate a background and observations consistent\n";
          JStr "with their assumed error chareteristics. This approach is known as identical\n";
          JStr "twin experiments and allows us to fully evaluate the success of different DA\n";
          JStr "algorithms.\n";
          JStr "\n";
          JStr "First of all we need to import the functions needed."])];
      JObj [
        ("cell_type", JStr "code");
        ("execution_count", JNum 3%Z);
        ("id", JStr "9e670a8a");
        ("metadata", JObj [
          ("id", JStr "9e670a8a")]);
        ("outputs", JArr []);
        ("source", JArr [
          JStr "import numpy as np\n";
          JStr "from tools.L96_model import lorenz96\n";
          JStr "from tools.obs import createH, gen_obs\n";
          JStr "from tools.cov import getBcanadian\n";
          JStr "from tools.plots import plotL96, plotL96obs, plotL96_Linerr, \\\n";
          JStr "        plotH, tileplotB, plotUniDensities, plotMultiDensities\n";
          JStr "from tools.diag import compute_lin_error"])];
      JObj [
        ("cell_type", JStr "markdown");
        ("id", JStr "5a29adde");
        ("metadata", JObj [
          ("lines_to_next_cell", JNum 0%Z);
          ("id", JStr "5a29adde")]);
        ("source", JArr [
          JStr "# The Lorenz 96 model\n";
          JStr "The Lorenz 96 model describes the simplified evolution of a univariate large-scale\n";
          JStr "atmospheric system on a one-dimensional circle of latitude; simulating external\n";
          JStr "forcing, internal dissipation and advection. It is given by the following equations\n";
          JStr "\\begin{equation}\n";
          JStr "\\frac{dx_i}{dt} = (x_{i+1} - x_{i-2})x_{i-1} - x_i + F \\quad \\text{for } i = 1, 2, \\ldots, n \\\\\n";
          JStr "\\end{equation}\n";
          JStr "where $x_i$ is the state variable at position $i$, and $F$ is a forcing term. The Lorenz 96 model is often used to illustrate DA methodology due to its strong sensitivity to the initial conditions.\n";
          JStr "\n";
          JStr "Running the next section of code will produce a Hovmoller plot of the Lorenz\n";
          JStr "96 model when $n=12$ and $F=8$. What structures are identifiable within this plot?"])];
      JObj [
        ("cell_type", JStr "code");
        ("execution_count", JNull);
        ("id", JStr "96917134");
        ("metadata", JObj [
          ("lines_to_next_cell", JNum 2%Z);
          ("id", JStr "96917134")]);
        ("outputs", JArr []);
        ("source", JArr [
          JStr "# parameters describing the model simulations\n";
          JStr "n      = 12     # No. of state variables (No. of nodes in Lorenz-96)\n";
          JStr "F      = 8.0    # Forcing F>5.0 guarantees chaos\n";
          JStr "deltat = 0.025  # Model timestep. 0.025 is equivalent to approximately 3 hours in the atmosphere, based on the error growth rate.\n";
          JStr "tf     = 5.0    # The final time of the simulation\n";
          JStr "t      = np.arange(0.0, tf+deltat/2, deltat)  # Set an array of the timesteps\n";
          JStr "\n";
          JStr "# Set the initial conditions to something plus a perturbation\n";
          JStr "x0     = np.repeat(10.0, n)\n";
          JStr "x0[1] += 0.05\n";
          JStr "\n";
          JStr "# Discard the first number of model time steps (spin-up)\n";
          JStr "discard = 150\n";
          JStr "\n";
          JStr "# Call the model integration scheme and output a time sequence\n";
          JStr "xtrue  = lorenz96(x0, tf, deltat, discard, F)\n";
          JStr "\n";
          JStr "# Plot the truth\n";
          JStr "plotL96(t, xtrue, n, 'Lorenz 96 system')"])];
      JObj [
        ("cell_type", JStr "markdown");
        ("id", JStr "63cf317c-ecc5-44b5-808e-3a870a65cb05");
        ("metadata", JObj [
          ("id", JStr "63cf317c-ecc5-44b5-808e-3a870a65cb05")]);
        ("source", JArr [
          JStr "# Linearisation error\n";
          JStr "\n";
          JStr "In many data assimilation schemes there is a strong assumption that the error statistics are Gaussian. This assumption is very closely linked to the assumption that the propogating model is linear.\n";
          JStr "\n";
          JStr "We can illustrate this for the Lorenz 96 model by sampling from a multivariate Gaussian distribution with mean $\\bf{0}$ and covariance ${\\bf I}_n$ at time $t_0$ and propagating the sample forward in time using the non-linear model."])];
      JObj [
        ("cell_type", JStr "code");
        ("execution_count", JNull);
        ("id", JStr "c31f4c6c-fe77-4eda-8b48-fb187f33b0d6");
        ("metadata", JObj [
          ("id", JStr "c31f4c6c-fe77-4eda-8b48-fb187f33b0d6")]);
        ("outputs", JArr []);
        ("source", JArr [
          JStr "n_sample=5000 # number of samples\n";
          JStr "sample_t0 = np.random.multivariate_normal(np.zeros(n), np.eye(n), n_sample).T\n";
          JStr "lin_t       = 100*deltat # length of time to compute linearisation error for\n";
          JStr "prop_sample = np.zeros((n,int(lin_t/deltat)+1,n_sample))\n";
          JStr "for i in range(n_sample):\n";
          JStr "    prop_sample[:,:,i]  = lorenz96(sample_t0[:,i], lin_t, deltat, 0, F)"])];
      JObj [
        ("cell_type", JStr "markdown");
        ("id", JStr "f753d135-b799-4774-96d4-cdc263d7a299");
        ("metadata", JObj [
          ("id", JStr "f753d135-b799-4774-96d4-cdc263d7a299")]);
        ("source", JArr [
          JStr "Let us first look at how the univariate distributions evolve over time. What non-Gaussian features can be seen, and when do they appear?"])];
      JObj [
        ("cell_type", JStr "code");
        ("execution_count", JNull);
        ("id", JStr "bea86de0-a31a-4b41-913b-5d853c32ec82");
        ("metadata", JObj [
          ("id", JStr "bea86de0-a31a-4b41-913b-5d853c32ec82")]);
        ("outputs", JArr []);
        ("source", JArr [
          JStr "times = [20,30,40,50,60,70] # timesteps to plot out the evolved sample\n";
          JStr "var1D = 5 # index of variable to plot\n";
          JStr "\n";
          JStr "plotUniDensities(times,prop_sample,var1D)"])];
      JObj [
        ("cell_type", JStr "markdown");
        ("id", JStr "06e7e221");
        ("metadata", JObj [
          ("lines_to_next_cell", JNum 0%Z);
          ("id", JStr "06e7e221")]);
        ("source", JArr [
          JStr "In the next section, we extend this to look at the joint distribution between two variables. To reduce the noise in the output, you may need to increase the sample size (about 5000 is good). Again, what non-Gaussian features can be seen? Compare the plots to the univariate densities plotted above, can you match the structures? Try different variables (vars2D)."])];
      JObj [
        ("cell_type", JStr "code");
        ("execution_count", JNull);
        ("id", JStr "821c2f22-0616-4058-8944-eb89a2d75bbd");
        ("metadata", JObj [
          ("id", JStr "821c2f22-0616-4058-8944-eb89a2d75bbd")]);
        ("outputs", JArr []);
        ("source", JArr [
          JStr "vars2D = [var1D,6] # indices of two variables to plot the joint distribution of\n";
          JStr "\n";
          JStr "plotMultiDensities(times,prop_sample,vars2D)"])];
      JObj [
        ("cell_type", JStr "markdown");
        ("id", JStr "b79588c2-957a-4e68-877b-aac7eb7b143e");
        ("metadata", JObj [
          ("id", JStr "b79588c2-957a-4e68-877b-aac7eb7b143e")]);
        ("source", JArr [
          JStr "It is clearly difficult to visualise how close to Gaussian a distribution is in high dimensions. Another way to understand the accuracy of the Gaussian approximation is to quantify the error resulting from assuming that the model is linear. The 'linearisation error' measures the difference between the linearised (Tangent Linear) model\n";
          JStr "acting on an increment and the evolution of the difference between two\n";
          JStr "non-linear runs initially separated by the same increment.\n";
          JStr "\\begin{equation}\n";
          JStr "lin error(t) = ||NL({\\bf x}+\\Delta {\\bf x},t)-NL({\\bf x},t)-TL(\\Delta {\\bf x},t)||\n";
          JStr "\\end{equation}\n";
          JStr "where $|| .||$ represents the L2 norm.\n";
          JStr "The size of the linearisation error will depend on the size of increment,\n";
          JStr "$\\Delta {\\bf x}$, and length of the similation, $t$. Therefore, we want to find\n";
          JStr "timescales for which the linearisation error remains small for\n";
          JStr "the magnitude of a typical analysis increment, ${\\bf x}_a-{\\bf x}_b={\\bf K}({\\bf y}-h({\\bf x}_b))$.\n";
          JStr "\n";
          JStr "In the next section of code the linearisation error is computed for the lorenz 96 model."])];
      JObj [
        ("cell_type", JStr "code");
        ("execution_count", JNull);
        ("id", JStr "94ea489a");
        ("metadata", JObj [
          ("lines_to_next_cell", JNum 0%Z);
          ("id", JStr "94ea489a")]);
        ("outputs", JArr []);
        ("source", JArr [
          JStr "Delta_x   = np.ones(n,)#xtrue[:,5]-xtrue[:,4] #-np.ones(n,)*np.sqrt(5/np.pi) #xtrue[:,2]-xtrue[:,0]# initial pertubation\n";
          JStr "lin_error,NLdiff,TLdiff = compute_lin_error(Delta_x,xtrue[:,0], F, lin_t, deltat)\n";
          JStr "# plot TL and non-linear model. Compute the linearisation error as a function of time.\n";
          JStr "plotL96_Linerr(lin_error,NLdiff,TLdiff)"])];
      JObj [
        ("cell_type", JStr "markdown");
        ("id", JStr "133b0696");
        ("metadata", JObj [
          ("lines_to_next_cell", JNum 0%Z);
          ("id", JStr "133b0696")]);
        ("source", JArr [
          JStr "What does the linearisation error tell you about how frequently you need to\n";
          JStr "observe the system?\n";
          JStr "Try changing the variable $Delta\\_x$ (some suggestions are given). How sensitive is the linearisation error to\n";
          JStr "the magnitude and sign of the increment?"])];
      JObj [
        ("cell_type", JStr "markdown");
        ("id", JStr "3ad64884");
        ("metadata", JObj [
          ("lines_to_next_cell", JNum 0%Z);
          ("id", JStr "3ad64884")]);
        ("source", JArr [
          JStr "# Generation of Bmatrix\n";
          JStr "To assimilate data into the Lorenz 96 model we need to have an estimate\n";
          JStr "of the background error covariance matrix, this should represent all sources\n";
          JStr "of uncertainty in the background estimate. As the background generally comes from\n";
          JStr "a forecast from the previous analysis, a large source of uncertainty comes from\n";
          JStr "the internal variability of the forecasting model. This can be estimated before\n";
          JStr "an assimilation system is in place using the 'Canadian Quick' method. This\n";
          JStr "method estimates B as the sample covariance of differneces in time lagged\n";
          JStr "forecasts generated from a long forecast run.\n";
          JStr "\\begin{equation}\n";
          JStr "\\epsilon = ({\\bf x}(t+T)-{\\bf x}(t))/\\sqrt(2)),\n";
          JStr "\\end{equation}\n";
          JStr "where $T$ is the size of the time lag.\n";
          JStr "\n";
          JStr "The following code estimates ${\\bf B}$ using the Canadian Quick method for the Lorenz 96 model."])];
      JObj [
        ("cell_type", JStr "code");
        ("execution_count", JNull);
        ("id", JStr "3f374fbc");
        ("metadata", JObj [
          ("lines_to_next_cell", JNum 0%Z);
          ("id", JStr "3f374fbc")]);
        ("outputs", JArr []);
        ("source", JArr [
          JStr "lag         = int(0.1/deltat) # the lag, T, in number of time steps,\n";
          JStr "                    # 6 hours is about 0.05 time units, one period of system is about 1.8 time units\n";
          JStr "max_var     = None#2# # scales the estimated B to have a maximum variance\n";
          JStr "sample_size = 10000 # number of samples to estimate B\n";
          JStr "xB  = lorenz96(x0, sample_size*deltat, deltat, discard, F)\n";
          JStr "B,Bcorr     = getBcanadian(xB,lag,max_var,sample_size)# create a climatological matrix\n";
          JStr "# set plot properties and then plot\n";
          JStr "mycmap      = 'BrBG'\n";
          JStr "vs          = [-np.amax(np.diag(B)),np.amax(np.diag(B))]\n";
          JStr "tileplotB(B,mycmap,vs)"])];
      JObj [
        ("cell_type", JStr "markdown");
        ("id", JStr "e9da1f4a");
        ("metadata", JObj [
          ("lines_to_next_cell", JNum 0%Z);
          ("id", JStr "e9da1f4a")]);
        ("source", JArr [
          JStr "Compare the structure of the B matrix to the Hovmoller plot. Can you explain the correlations? What does the structure of the B matrix tell you about how information in\n";
          JStr "observations will be spread to other variables?\n";
          JStr "How sensitive is the estimate\n";
          JStr "of B to the lag and sample_size parameters?"])];
      JObj [
        ("cell_type", JStr "code");
        ("execution_count", JNull);
        ("id", JStr "d9f16454");
        ("metadata", JObj [
          ("id", JStr "d9f16454")]);
        ("outputs", JArr []);
        ("source", JArr [])];
      JObj [
        ("cell_type", JStr "markdown");
        ("id", JStr "15aff66e");
        ("metadata", JObj [
          ("lines_to_next_cell", JNum 0%Z);
          ("id", JStr "15aff66e")]);
        ("source", JArr [
          JStr "# Generation of observations\n";
          JStr "In identical twin experiments we can simulate the observations to be consistent\n";
          JStr "with the truth (represented in the model space) given the error of the observations and the observation operator\n";
          JStr "(the mapping from the model variables to those observed).\n";
          JStr "Four different options for the observation operator are given below:\n";
          JStr "- 'all': in which every model variable is directly observed, such that we have $n$ observations\n";
          JStr "- '1010': in which every other model variable is directly observed, such that we have $n/2$ observations\n";
          JStr "- 'landsea': in which half the domain is directly observed, such that we have $n/2$ observations\n";
          JStr "- 'foot_cent': in which one observation is a weighted average of grid points from the centre of the domain\n";
          JStr "- 'foot_6': in which $p=6$ equally distributed observations measure a weighted\n";
          JStr "    average of neighbouring grid points. This has an additional parameter 'footprint', which governs how many grid points are observed.\n";
          JStr "\n";
          JStr "In the following you can also set how frequently the observations are\n";
          JStr "available in time, and the error variance.\n";
          JStr "Running this code provides a plot of observation operator matrix, H, which\n";
          JStr "is the same at each time that the observations are available. Each row i of\n";
          JStr "H represents dh(x)/dx for the ith observation. Also plotted\n";
          JStr "are the observations as a function of the observation number and the observation time."])];
      JObj [
        ("cell_type", JStr "code");
        ("execution_count", JNull);
        ("id", JStr "eefe6fc8");
        ("metadata", JObj [
          ("lines_to_next_cell", JNum 0%Z);
          ("id", JStr "eefe6fc8")]);
        ("outputs", JArr []);
        ("source", JArr [
          JStr "from tools.plots import plotL96, plotL96obs, plotL96_Linerr, plotH, tileplotB\n";
          JStr "obsgrid     = '1010'  # 'all': observe all variables\n";
          JStr "                    # '1010': observe every other variable,\n";
          JStr "                    # 'landsea': observe only half of domain\n";
          JStr "                    # 'foot_cent': single obs of a footprint (truncated Gaussian at centre of domain)\n";
          JStr "                    # 'foot_6': six obs of a footprint (truncated Gaussians throughout the domain)\n";
          JStr "period_obs  = 2      # number of time steps between observations\n";
          JStr "var_obs     = 2    # observation error variance\n";
          JStr "seed        = 1      # random number seed\n";
          JStr "footprint   = 3     # number of gridpoints observed by one variable for the obsgrid for 'foot_6'option\n";
          JStr "# Create observation operator\n";
          JStr "p, H        = createH(obsgrid,n,footprint)\n";
          JStr "\n";
          JStr "# Plot the observation operator matrix\n";
          JStr "plotH(H)\n";
          JStr "\n";
          JStr "# Generate the observation times, the synthetic observations, and the ob err cor matrix\n";
          JStr "tobs, y, R  = gen_obs(t, xtrue, period_obs, H, var_obs, seed)\n";
          JStr "# Plot the observations\n";
          JStr "plotL96obs(tobs, y, p, 'L96 observations')"])];
      JObj [
        ("cell_type", JStr "markdown");
        ("id", JStr "fe6a4d7c");
        ("metadata", JObj [
          ("id", JStr "fe6a4d7c")]);
        ("source", JArr [
          JStr "Try different options for the obsgrid, period_obs, and var_obs. Comparing to\n";
          JStr "the original Hovmoller plot, which options do you think provides the most\n";
          JStr "information about the true underlying system?"])];
      JObj [
        ("cell_type", JStr "code");
        ("execution_count", JNull);
        ("id", JStr "c5630535");
        ("metadata", JObj [
          ("id", JStr "c5630535")]);
        ("outputs", JArr []);
        ("source", JArr [])]]);
    ("metadata", JObj [
      ("jupytext", JObj [
        ("cell_metadata_filter", JStr "-all");
        ("main_language", JStr "python");
        ("notebook_metadata_filter", JStr "-all")]);
      ("kernelspec", JObj [
        ("display_name", JStr "Python 3 (ipykernel)");
        ("language", JStr "python");
        ("name", JStr "python3")]);
      ("language_info", JObj [
        ("codemirror_mode", JObj [
          ("name", JStr "ipython");
          ("version", JNum 3%Z)]);
        ("file_extension", JStr ".py");
        ("mimetype", JStr "text/x-python");
        ("name", JStr "python");
        ("nbconvert_exporter", JStr "python");
        ("pygments_lexer", JStr "ipython3");
        ("version", JStr "3.13.3")]);
      ("colab", JObj [
        ("provenance", JArr [])])]);
    ("nbformat", JNum 4%Z);
    ("nbformat_minor", JNum 5%Z)].

(** The file is laid out with one scalar, one key and one closing bracket
    per line, and an empty array or object on the line of its key. *)
Fixpoint lines (j : json) : nat :=
  match j with
  | JNull | JNum _ | JStr _ => 1
  | JArr [] | JObj [] => 1
  | JArr items => 2 + list_sum (map lines items)
  | JObj fields => 2 + list_sum (map (fun kv => lines (snd kv)) fields)
  end.

Definition field (key : string) (j : json) : option json :=
  match j with
  | JObj fields =>
      option_map snd (find (fun kv => String.eqb (fst kv) key) fields)
  | _ => None
  end.

Definition items_of (o : option json) : list json :=
  match o with Some (JArr items) => items | _ => [] end.

Definition raw_of (j : json) : string :=
  match j with JStr raw => raw | _ => EmptyString end.

Inductive cell_type : Type := markdown | code.

Definition cell_type_eqb (a b : cell_type) : bool :=
  match a, b with
  | markdown, markdown | code, code => true
  | _, _ => false
  end.

Record cell : Type :=
  { kind : cell_type; id : string; source : list string; stdout : list string }.

Definition cell_of (j : json) : cell :=
  {| kind := match field "cell_type" j with
             | Some (JStr "code") => code
             | _ => markdown
             end;
     id := match field "id" j with Some (JStr s) => s | _ => EmptyString end;
     source := map raw_of (items_of (field "source" j));
     stdout := flat_map (fun o => map raw_of (items_of (field "text" o)))
                        (items_of (field "outputs" j)) |}.

Definition cells : list cell := map cell_of (items_of (field "cells" file)).

End Ipynb.

(* ===================================================================== *)
(** * The Python text of the code cells *)
(* ===================================================================== *)

Module Source.

Import Ipynb.
Local Open Scope string_scope.

Definition backslash : ascii := ascii_of_nat 92.
Definition newline : ascii := ascii_of_nat 10.
Definition tab : ascii := ascii_of_nat 9.
Definition double_quote : ascii := ascii_of_nat 34.

(** A JSON string as the text it denotes.  A [\u] escape is left as it is
    written. *)
Fixpoint unescape (s : string) : string :=
  match s with
  | EmptyString => EmptyString
  | String c r =>
      if Ascii.eqb c backslash then
        match r with
        | String d r' =>
            if Ascii.eqb d "n" then String newline (unescape r')
            else if Ascii.eqb d "t" then String tab (unescape r')
            else if Ascii.eqb d "u" then String c (String d (unescape r'))
            else String d (unescape r')
        | EmptyString => String c EmptyString
        end
      else String c (unescape r)
  end.

Definition is_alpha (c : ascii) : bool :=
  let k := nat_of_ascii c in
  (((65 <=? k) && (k <=? 90)) || ((97 <=? k) && (k <=? 122)) || (k =? 95))%nat.

Definition is_digit (c : ascii) : bool :=
  let k := nat_of_ascii c in ((48 <=? k) && (k <=? 57))%nat.

Definition is_space (c : ascii) : bool :=
  Ascii.eqb c " " || Ascii.eqb c tab || Ascii.eqb c newline.

Definition is_quote (c : ascii) : bool :=
  Ascii.eqb c "'" || Ascii.eqb c double_quote.

(** Tokens of a line of Python.  A name keeps its dots:
    [np.random.multivariate_normal] is one token. *)
Inductive token : Type :=
| Name (s : string)
| Number (s : string)
| Str (s : string)
| Op (c : ascii).

Inductive mode : Type :=
| Idle
| InName (acc : string)
| InNumber (acc : string)
| InStr (quote : ascii) (acc : string)
| InComment.

Definition snoc (acc : string) (c : ascii) : string := acc ++ String c EmptyString.

Definition start (c : ascii) : mode * list token :=
  if is_space c then (Idle, [])
  else if Ascii.eqb c "#" then (InComment, [])
  else if is_quote c then (InStr c EmptyString, [])
  else if is_alpha c then (InName (String c EmptyString), [])
  else if is_digit c then (InNumber (String c EmptyString), [])
  else (Idle, [Op c]).

Definition finish (m : mode) : list token :=
  match m with
  | InName a => [Name a]
  | InNumber a => [Number a]
  | InStr _ a => [Str a]
  | Idle | InComment => []
  end.

Fixpoint lex (m : mode) (s : string) : list token :=
  match s with
  | EmptyString => finish m
  | String c r =>
      match m with
      | InComment => []
      | InStr q a =>
          if Ascii.eqb c q then Str a :: lex Idle r else lex (InStr q (snoc a c)) r
      | InName a =>
          if is_alpha c || is_digit c || Ascii.eqb c "."
          then lex (InName (snoc a c)) r
          else Name a :: (let (m', ts) := start c in ts ++ lex m' r)
      | InNumber a =>
          if is_digit c || Ascii.eqb c "."
          then lex (InNumber (snoc a c)) r
          else Number a :: (let (m', ts) := start c in ts ++ lex m' r)
      | Idle => let (m', ts) := start c in ts ++ lex m' r
      end
  end.

(** A physical line: an IPython escape ([!command], [%magic]) or Python
    with its indentation. *)
Inductive pline : Type :=
| Escape (bang : ascii) (command : string)
| Python (indent : nat) (toks : list token).

Fixpoint strip (s : string) : nat * string :=
  match s with
  | String c r => if Ascii.eqb c " " then let (k, t) := strip r in (S k, t) else (O, s)
  | EmptyString => (O, s)
  end.

Fixpoint chomp (s : string) : string :=
  match s with
  | EmptyString => EmptyString
  | String c r =>
      match r with
      | EmptyString => if Ascii.eqb c newline then EmptyString else s
      | _ => String c (chomp r)
      end
  end.

Definition physical (raw : string) : pline :=
  let (k, body) := strip (chomp (unescape raw)) in
  match body with
  | String c r =>
      if Ascii.eqb c "!" || Ascii.eqb c "%" then Escape c r
      else Python k (lex Idle body)
  | EmptyString => Python k []
  end.

(** A line that ends in a backslash goes on with the next one. *)
Fixpoint continued (ts : list token) : option (list token) :=
  match ts with
  | [] => None
  | [Op c] => if Ascii.eqb c backslash then Some [] else None
  | x :: r => option_map (cons x) (continued r)
  end.

Fixpoint logical (ls : list pline) : list pline :=
  match ls with
  | [] => []
  | Python k ts :: rest =>
      match continued ts, logical rest with
      | Some ts', Python _ us :: more => Python k (ts' ++ us) :: more
      | _, joined => Python k ts :: joined
      end
  | l :: rest => l :: logical rest
  end.

(** ** Statements *)

Inductive stmt_kind : Type :=
| Shell_escape      (* [!command] *)
| Magic_escape      (* [%magic] *)
| Import_stmt
| For_stmt
| Assign            (* [targets = value] *)
| AugAssign         (* [target op= value] *)
| Expr              (* an expression on its own: a call *)
| Compound.         (* [def], [class], [try], [with], [while], [if], ... *)

Definition stmt_kind_eqb (a b : stmt_kind) : bool :=
  match a, b with
  | Shell_escape, Shell_escape | Magic_escape, Magic_escape | Import_stmt, Import_stmt
  | For_stmt, For_stmt | Assign, Assign | AugAssign, AugAssign | Expr, Expr
  | Compound, Compound => true
  | _, _ => false
  end.

Record stmt : Type :=
  { cell : nat;               (* index of the cell in the file *)
    indent : nat;
    kind : stmt_kind;
    command : string;         (* of an escape *)
    targets : list token;     (* left of [=], or between [for] and [in] *)
    value : list token }.     (* the rest *)

Definition mem (x : string) (l : list string) : bool := existsb (String.eqb x) l.

Definition compound_keywords : list string :=
  ["def"; "class"; "async"; "while"; "if"; "elif"; "else"; "try"; "except";
   "finally"; "with"; "return"; "yield"; "raise"; "assert"; "del"; "global";
   "nonlocal"; "pass"; "break"; "continue"; "match"].

Definition keywords : list string :=
  ["import"; "from"; "as"; "for"; "in"; "lambda"; "None"; "True"; "False";
   "and"; "or"; "not"; "is"] ++ compound_keywords.

Definition is_op (c : ascii) (t : token) : bool :=
  match t with Op d => Ascii.eqb c d | _ => false end.

Definition opens (t : token) : bool := is_op "(" t || is_op "[" t || is_op "{" t.
Definition closes (t : token) : bool := is_op ")" t || is_op "]" t || is_op "}" t.

Definition compares (t : token) : bool :=
  is_op "=" t || is_op "!" t || is_op "<" t || is_op ">" t.

Definition augments (t : token) : bool :=
  is_op "+" t || is_op "-" t || is_op "*" t || is_op "/" t || is_op "%" t
  || is_op "&" t || is_op "|" t || is_op "^" t || is_op "@" t.

(** The first [=] outside brackets that is not part of a comparison splits
    an assignment; [before] is kept in reverse. *)
Fixpoint split_assign (depth : nat) (before : list token) (ts : list token)
  : option (list token * list token) :=
  match ts with
  | [] => None
  | x :: r =>
      if opens x then split_assign (S depth) (x :: before) r
      else if closes x then split_assign (Nat.pred depth) (x :: before) r
      else if is_op "=" x && Nat.eqb depth 0
              && negb (match before with y :: _ => compares y | [] => false end)
              && negb (match r with y :: _ => is_op "=" y | [] => false end)
           then Some (before, r)
           else split_assign depth (x :: before) r
  end.

Fixpoint until_in (ts : list token) : list token * list token :=
  match ts with
  | [] => ([], [])
  | Name "in" :: r => ([], r)
  | x :: r => let (a, b) := until_in r in (x :: a, b)
  end.

Definition statement (c : nat) (l : pline) : option stmt :=
  match l with
  | Escape b cmd =>
      Some {| cell := c; indent := 0;
              kind := if Ascii.eqb b "!" then Shell_escape else Magic_escape;
              command := cmd; targets := []; value := [] |}
  | Python _ [] => None
  | Python k ((Name w :: r) as ts) =>
      let mk kd tg v :=
        Some {| cell := c; indent := k; kind := kd; command := EmptyString;
                targets := tg; value := v |} in
      if mem w ["import"; "from"] then mk Import_stmt [] ts
      else if String.eqb w "for" then let (a, b) := until_in r in mk For_stmt a b
      else if mem w compound_keywords then mk Compound [] ts
      else match split_assign 0 [] ts with
           | Some (y :: before, v) =>
               if augments y then mk AugAssign (rev before) v
               else mk Assign (rev (y :: before)) v
           | Some ([], v) => mk Assign [] v
           | None => mk Expr [] ts
           end
  | Python k ts =>
      Some {| cell := c; indent := k; kind := Expr; command := EmptyString;
              targets := []; value := ts |}
  end.

Fixpoint indexed {A} (i : nat) (l : list A) : list (nat * A) :=
  match l with
  | [] => []
  | a :: r => (i, a) :: indexed (S i) r
  end.

Fixpoint somes {A} (l : list (option A)) : list A :=
  match l with
  | [] => []
  | Some a :: r => a :: somes r
  | None :: r => somes r
  end.

Definition statements_of (ic : nat * Ipynb.cell) : list stmt :=
  match Ipynb.kind (snd ic) with
  | code => somes (map (statement (fst ic)) (logical (map physical (Ipynb.source (snd ic)))))
  | markdown => []
  end.

(** The statements of the notebook in the order of the file. *)
Definition program : list stmt := flat_map statements_of (indexed 0 Ipynb.cells).

(** ** Names *)

Fixpoint head (s : string) : string :=
  match s with
  | EmptyString => EmptyString
  | String c r => if Ascii.eqb c "." then EmptyString else String c (head r)
  end.

(** The variables a run of tokens reads: the first component of each name
    that is not an attribute of an expression and not a keyword. *)
Fixpoint names (after_dot : bool) (ts : list token) : list string :=
  match ts with
  | [] => []
  | Name s :: r =>
      if after_dot || mem s keywords then names false r
      else head s :: names false r
  | x :: r => names (is_op "." x) r
  end.

(** The names written outside brackets. *)
Fixpoint outer (depth : nat) (ts : list token) : list token :=
  match ts with
  | [] => []
  | x :: r =>
      if opens x then outer (S depth) r
      else if closes x then outer (Nat.pred depth) r
      else if Nat.eqb depth 0 then x :: outer depth r else outer depth r
  end.

(** What an import statement binds, and to which module. *)
Fixpoint bound (ts : list token) : list string :=
  match ts with
  | Name _ :: Name "as" :: Name a :: r => a :: bound r
  | Name x :: r => x :: bound r
  | _ :: r => bound r
  | [] => []
  end.

Definition bindings (s : stmt) : list (string * string) :=
  match kind s, value s with
  | Import_stmt, Name "import" :: Name m :: Name "as" :: Name a :: _ => [(a, m)]
  | Import_stmt, Name "import" :: Name m :: _ => [(head m, m)]
  | Import_stmt, Name "from" :: Name m :: Name "import" :: r =>
      map (fun x => (x, m)) (bound r)
  | _, _ => []
  end.

Definition defs (s : stmt) : list string :=
  match kind s with
  | Import_stmt => map fst (bindings s)
  | For_stmt | Assign | AugAssign => names false (outer 0 (targets s))
  | _ => []
  end.

Definition subscripted (ts : list token) : bool := existsb (is_op "[") ts.

Definition uses (s : stmt) : list string :=
  match kind s with
  | Import_stmt | Shell_escape | Magic_escape => []
  | Assign =>
      (if subscripted (targets s) then names false (targets s) else [])
      ++ names false (value s)
  | AugAssign => names false (targets s) ++ names false (value s)
  | For_stmt | Expr | Compound => names false (value s)
  end.

(** The functions a statement calls: the names followed by an opening
    parenthesis. *)
Fixpoint callees (ts : list token) : list string :=
  match ts with
  | Name f :: ((Op c :: _) as r) =>
      if Ascii.eqb c "(" then f :: callees r else callees r
  | _ :: r => callees r
  | [] => []
  end.

Definition calls (s : stmt) : list string := callees (targets s ++ value s).

(** ** Where a called function comes from *)

Definition all_bindings : list (string * string) := flat_map bindings program.

Definition module_of (f : string) : option string :=
  option_map snd (find (fun b => String.eqb (fst b) (head f)) all_bindings).

Definition from_module (accept : string -> bool) (f : string) : bool :=
  match module_of f with
  | Some m => accept m
  | None => false
  end.

Definition from_tools : string -> bool := from_module (String.prefix "tools.").
Definition from_numpy : string -> bool := from_module (String.eqb "numpy").
Definition plots : string -> bool := from_module (String.eqb "tools.plots").

(** Python's own functions that the notebook calls. *)
Definition builtins : list string := ["int"; "range"].

(** The functions the notebook calls, each once, in the order of their
    first call. *)
Fixpoint dedup (l : list string) : list string :=
  match l with
  | [] => []
  | x :: r => x :: filter (fun y => negb (String.eqb x y)) (dedup r)
  end.

Definition called : list string := dedup (flat_map calls program).

(** ** Data flow *)

(** Every name a statement reads is bound by an earlier statement (or is
    one of [known]). *)
Fixpoint scoped (known : list string) (ss : list stmt) : bool :=
  match ss with
  | [] => true
  | s :: r => forallb (fun u => mem u known) (uses s) && scoped (defs s ++ known) r
  end.

(** The statements the values of [wanted] depend on, walking back from the
    end: a statement that binds or updates a wanted name is kept, and the
    names it reads become wanted. *)
Fixpoint slice (wanted : list string) (backwards : list stmt) : list stmt :=
  match backwards with
  | [] => []
  | s :: earlier =>
      if existsb (fun d => mem d wanted) (defs s)
      then s :: slice (uses s ++ wanted) earlier
      else slice wanted earlier
  end.

Definition depends_on (v : string) : list stmt := rev (slice [v] (rev program)).

Definition calls_to (f : string) (ss : list stmt) : list stmt :=
  filter (fun s => mem f (calls s)) ss.

Definition binds (v : string) (s : stmt) : bool := mem v (defs s).

(** The position in the program of the first statement satisfying [f]. *)
Fixpoint position (f : stmt -> bool) (ss : list stmt) : option nat :=
  match ss with
  | [] => None
  | s :: r => if f s then Some 0%nat else option_map S (position f r)
  end.

(** Where a statement is and what it binds. *)
Definition place (s : stmt) : nat * list string := (cell s, defs s).

(** ** What a statement does outside the Python process *)

Fixpoint contains (needle s : string) : bool :=
  String.prefix needle s
  || match s with
     | EmptyString => false
     | String _ r => contains needle r
     end.

(** A shell escape that runs [git clone] on a URL fetches a repository over
    the network and writes it into the working directory. *)
Definition clones (s : stmt) : bool :=
  stmt_kind_eqb (kind s) Shell_escape
  && String.prefix "git clone " (command s)
  && contains "://" (command s).

Definition escapes (s : stmt) : bool :=
  stmt_kind_eqb (kind s) Shell_escape || stmt_kind_eqb (kind s) Magic_escape.

(** ** What the notebook is made of *)

Definition is_kind (k : stmt_kind) (s : stmt) : bool := stmt_kind_eqb (kind s) k.

Definition is_name (w : string) (t : token) : bool :=
  match t with Name s => String.eqb s w | _ => false end.

(** A statement that defines a function or a class, or a [lambda]. *)
Definition defines_function (s : stmt) : bool :=
  (is_kind Compound s
   && existsb (fun t => is_name "def" t || is_name "class" t) (value s))
  || existsb (is_name "lambda") (targets s ++ value s).

(** A call of a plotting function on its own line. *)
Definition is_plot (s : stmt) : bool :=
  is_kind Expr s && negb (Nat.eqb (List.length (calls s)) 0) && forallb plots (calls s).

(** The notebook read as a file that calls nothing but its [tools] imports,
    and whose every statement is an assignment or a call of one of them. *)
Definition calls_only_tools : Prop :=
  forall s f, In s program -> In f (calls s) -> from_tools f = true.

Definition assigns_or_calls_tools (s : stmt) : bool :=
  is_kind Assign s || is_kind AugAssign s || existsb from_tools (calls s).

Definition only_assignments_and_tools_calls : Prop :=
  forall s, In s program -> assigns_or_calls_tools s = true.

(** The notebook read as a file none of whose statements fetches over the
    network or writes to the file system. *)
Definition stays_inside : Prop := forall s, In s program -> clones s = false.

(** What a statement of the notebook is: one of the two escapes of the
    setup cell, an import, an assignment, the head of the loop, or a plot. *)
Definition classified (s : stmt) : bool :=
  (escapes s && Nat.eqb (cell s) 1)
  || is_kind Import_stmt s || is_kind Assign s || is_kind AugAssign s
  || is_kind For_stmt s || is_plot s.

(** The numerical helpers: what is imported from [tools] and does not plot. *)
Definition numerical_helpers : list string :=
  filter (fun f => from_tools f && negb (plots f)) called.

(** The modules the notebook imports, each once. *)
Definition modules : list string := dedup (map snd all_bindings).

(** Every code cell comes right after a markdown cell. *)
Fixpoint prose_before_code (previous : Ipynb.cell_type) (cs : list Ipynb.cell) : bool :=
  match cs with
  | [] => true
  | c :: r =>
      match Ipynb.kind c, previous with
      | code, code => false
      | k, _ => prose_before_code k r
      end
  end.

(** ** Numerical calls *)

(** The functions the notebook calls to compute on numbers: everything it
    calls except the plotting functions and Python's [int] and [range]. *)
Definition numerical_calls : list string :=
  filter (fun f => negb (plots f) && negb (mem f builtins)) called.

(** The notebook read as code whose every statement is a parameter
    assignment, a call of one of the numerical helpers, or a plot. *)
Definition parameter_helper_or_plot (s : stmt) : bool :=
  is_kind Assign s || is_kind AugAssign s
  || existsb (fun f => mem f numerical_helpers) (calls s) || is_plot s.

Definition only_parameters_helpers_and_plots : Prop :=
  forall s, In s program -> parameter_helper_or_plot s = true.

(** ** Names bound more than once *)

(** The statements that bind [v] or store into it ([v[i] = ...]), in the
    order of the file, and the names that more than one statement binds or
    stores into. *)
Definition binders (v : string) : list stmt := filter (binds v) program.

Definition rebound : list string :=
  filter (fun v => Nat.ltb 1 (List.length (binders v))) (dedup (flat_map defs program)).

(** An assignment that updates its target in place: [x[i] = ...] or
    [x[i] += ...]. *)
Definition updates_in_place (s : stmt) : bool :=
  (is_kind Assign s || is_kind AugAssign s) && subscripted (targets s).

(** The names that more than one statement binds, stores set aside. *)
Definition bound_twice : list string :=
  filter (fun v => Nat.ltb 1 (List.length (filter (fun s => negb (updates_in_place s))
                                                  (binders v))))
         (dedup (flat_map defs program)).

(** The modules a name is imported from, each once. *)
Definition modules_of (v : string) : list string :=
  dedup (map snd (filter (fun b => String.eqb (fst b) v) all_bindings)).

End Source.

(* ===================================================================== *)
(** * Properties *)
(* ===================================================================== *)

(** ** Lists and bounded quantifiers *)

(** A property of the first [k] naturals that a computation checks. *)
Lemma below_forallb (k : nat) (f : nat -> bool) :
  forallb f (seq 0 k) = true -> forall i, (i < k)%nat -> f i = true.
Proof.
  intros H i Hi.
  rewrite forallb_forall in H.
  apply H, in_seq. lia.
Qed.

(** Equality of floats is decided by the kernel's bitwise comparison. *)
Lemma float_eq (x y : float) : PrimFloat.Leibniz.eqb x y = true -> x = y.
Proof. apply FloatAxioms.Leibniz.eqb_spec. Qed.

(** ** The parameter cell and the time grid *)

Section ModelCell.

Import Py Notebook.
Local Open Scope float_scope.

Variable G : Type.
Variable lorenz96 : vec -> float -> float -> Z -> float -> mat.

Lemma arange_grid : arange 0.0 (5.0 + 0.025 / float_of_Z 2) 0.025 = Some grid.
Proof. vm_compute. reflexivity. Qed.

Lemma iadd_initial_state : iadd_item (repeat 10.0 12) 1 0.05 = Some initial_state.
Proof. vm_compute. reflexivity. Qed.

Lemma after_after (w : world G) (a b : list event) :
  after (after w a) b = after w (a ++ b).
Proof. unfold after. simpl. now rewrite <- app_assoc. Qed.

(** The parameter cell never raises: it leaves the variables [model] and
    has called [lorenz96] once and then [plotL96]. *)
Lemma cell_model_runs (w : world G) :
  cell_model G lorenz96 w
  = Some (model lorenz96, after w [Call "lorenz96"; Call "plotL96"]).
Proof.
  unfold cell_model, bind, lift.
  rewrite arange_grid, iadd_initial_state.
  unfold call, bind, emit, ret, model, after. simpl.
  now rewrite <- app_assoc.
Qed.

(** C10.  With [tf = 5.0] and [deltat = 0.025] the parameter cell leaves a
    time array [t] of exactly 201 values that starts at [0.0] and ends at
    [tf]: the final time is in the grid although arange excludes its upper
    bound.  The spacing is [deltat]: entry [i] is [i * deltat] in binary64
    arithmetic, and two neighbours differ by [deltat] up to the rounding of
    that product, never by more than [2^-50]. *)
Theorem time_grid_reaches_tf (w : world G) :
  exists m w',
    cell_model G lorenz96 w = Some (m, w')
    /\ tf m = 5.0 /\ deltat m = 0.025
    /\ List.length (t m) = 201%nat
    /\ nth 0 (t m) nan = 0.0
    /\ (forall i, (i < 201)%nat -> nth i (t m) nan = float_of_nat i * deltat m)
    /\ (forall i, (i < 200)%nat ->
          (abs (nth (S i) (t m) nan - nth i (t m) nan - deltat m) <=? 0x1p-50) = true)
    /\ last (t m) nan = tf m.
Proof.
  exists (model lorenz96), (after w [Call "lorenz96"; Call "plotL96"]).
  split; [apply cell_model_runs|].
  simpl.
  split; [reflexivity|]. split; [reflexivity|].
  split; [vm_compute; reflexivity|]. split; [vm_compute; reflexivity|].
  split; [|split].
  - intros i Hi. apply float_eq. revert i Hi.
    apply below_forallb. vm_compute. reflexivity.
  - apply below_forallb. vm_compute. reflexivity.
  - vm_compute. reflexivity.
Qed.

End ModelCell.

(** ** Shapes of arrays *)

Section Shapes.

Import Py.
Local Open Scope float_scope.

Lemma shape_is_true (a : mat) (r c : nat) : has_shape a r c -> shape_is a r c = true.
Proof.
  intros [Hr Hc]. unfold shape_is.
  apply andb_true_intro. split.
  - now apply Nat.eqb_eq.
  - apply forallb_forall. intros row Hin.
    rewrite Forall_forall in Hc. apply Nat.eqb_eq. now apply Hc.
Qed.

Lemma ncols_shape (a : mat) (r c : nat) : has_shape a (S r) c -> ncols a = c.
Proof.
  intros [Hr Hc]. destruct a as [|row rest]; [discriminate|].
  simpl. now inversion Hc.
Qed.

(** A column inside the array exists and has one entry per row. *)
Lemma column_in_range (a : mat) (r c k : nat) :
  has_shape a r c -> (k < c)%nat ->
  exists x, column a k = Some x /\ List.length x = r.
Proof.
  revert r. induction a as [|row rest IH]; intros r [Hr Hc] Hk.
  - exists []. simpl in *. now subst.
  - inversion Hc as [|? ? Hrow Hrest]; subst.
    destruct (IH (List.length rest) (conj eq_refl Hrest) Hk) as [x [Hx Hlen]].
    destruct (nth_error row k) eqn:E.
    + exists (f :: x). simpl. rewrite E, Hx. simpl. now rewrite Hlen.
    + apply nth_error_None in E. lia.
Qed.

Lemma transpose_shape (a : mat) (r c : nat) :
  has_shape a (S r) c -> has_shape (transpose a) c (S r).
Proof.
  intros Ha. pose proof (ncols_shape a r c Ha) as Hn.
  destruct Ha as [Hr Hc]. unfold transpose. rewrite Hn. split.
  - now rewrite length_map, length_seq.
  - apply Forall_forall. intros row Hin.
    apply in_map_iff in Hin. destruct Hin as [k [<- _]].
    now rewrite length_map.
Qed.

Lemma set_plane_in_range (a b : nat) (ps : arr3) (j : nat) (m : mat) :
  (j < List.length ps)%nat -> Forall (plane_dims (S a) b) ps -> has_shape m (S a) b ->
  exists ps', set_plane ps j m = Some ps'
              /\ List.length ps' = List.length ps
              /\ Forall (plane_dims (S a) b) ps'.
Proof.
  intros Hj Hps Hm. revert j Hj.
  induction Hps as [|old rest [Hold1 Hold2] Hrest IH]; intros j Hj; [simpl in Hj; lia|].
  destruct j as [|j]; simpl.
  - rewrite Hold1, Hold2, (shape_is_true m (S a) b Hm).
    exists (m :: rest). repeat split; auto.
    constructor; auto. split; [apply Hm | now apply (ncols_shape m a b)].
  - destruct (IH j) as [ps' [E [Hlen Hall]]]; [simpl in Hj; lia|].
    rewrite E. exists (old :: ps'). simpl. repeat split; auto.
    constructor; auto. now split.
Qed.

Lemma zeros3_dims (a b c : Z) :
  (0 < a)%Z -> Forall (plane_dims (Z.to_nat a) (Z.to_nat b)) (zeros3 a b c).
Proof.
  intros Ha. unfold zeros3. apply Forall_forall. intros plane Hin.
  apply repeat_spec in Hin. subst plane. split.
  - now rewrite repeat_length.
  - destruct (Z.to_nat a) eqn:E; [lia|].
    simpl. unfold zeros, repeat. now rewrite repeat_length.
Qed.

Lemma amax_diag_square (b : mat) (r : nat) :
  has_shape b (S r) (S r) -> exists top, amax (diag b) = Some top.
Proof.
  intros Hb. unfold diag.
  rewrite (ncols_shape b r (S r) Hb).
  destruct Hb as [-> _]. rewrite Nat.min_id. simpl. eauto.
Qed.

End Shapes.

(** ** Running the cells *)

Section Runs.

Import Py Notebook.
Local Open Scope float_scope.

Variable G : Type.
Variable multivariate_normal : vec -> mat -> Z -> G -> mat * G.
Variable lorenz96 : vec -> float -> float -> Z -> float -> mat.
Variable compute_lin_error : vec -> vec -> float -> float -> float -> vec * mat * mat.
Variable getBcanadian : mat -> Z -> option float -> Z -> mat * mat.
Variable createH : string -> Z -> Z -> Z * mat.
Variable gen_obs : vec -> mat -> Z -> mat -> Z -> Z -> G -> (vec * mat * mat) * G.

Local Abbreviation m := (model lorenz96).

Lemma initial_state_length : List.length initial_state = 12%nat.
Proof. vm_compute. reflexivity. Qed.

Lemma xtrue_shape : run_shape lorenz96 -> has_shape (xtrue m) 12 201.
Proof.
  intros H.
  pose proof (H initial_state 5.0 0.025 150%Z 8.0 200%Z) as Hx.
  rewrite initial_state_length in Hx. apply Hx.
  vm_compute. reflexivity.
Qed.

(** *** The sample cell *)

(** One pass of the loop body. *)
Lemma propagate_step (sample : mat) (i : nat) (ps : arr3) (w : world G) :
  run_shape lorenz96 ->
  has_shape sample 12 5000 -> (i < 5000)%nat ->
  List.length ps = 5000%nat -> Forall (plane_dims 12 101) ps ->
  exists ps',
    propagate G lorenz96 m sample lin_t_value i ps w
    = Some (ps', after w [Call "lorenz96"])
    /\ List.length ps' = 5000%nat /\ Forall (plane_dims 12 101) ps'.
Proof.
  intros Hrun Hs Hi Hlen Hps.
  destruct (column_in_range sample 12 5000 i Hs Hi) as [x [Hx Hxl]].
  assert (Hr : has_shape (lorenz96 x lin_t_value 0.025 0 8.0) 12 101).
  { pose proof (Hrun x lin_t_value 0.025 0%Z 8.0 100%Z) as Hr.
    rewrite Hxl in Hr. apply Hr. vm_compute. reflexivity. }
  destruct (set_plane_in_range 11 101 ps i _ ltac:(lia) Hps Hr) as [ps' [E [Hl Hall]]].
  exists ps'. split; [|split; [lia | exact Hall]].
  unfold propagate, bind, lift, call, emit, ret. rewrite Hx. simpl.
  now rewrite E.
Qed.

(** The loop: [count] passes from [i] on append [count] calls of
    [lorenz96] to the log and keep the shape of [prop_sample]. *)
Lemma propagate_loop (sample : mat) (count i : nat) (ps : arr3) (w : world G) :
  run_shape lorenz96 ->
  has_shape sample 12 5000 -> (i + count <= 5000)%nat ->
  List.length ps = 5000%nat -> Forall (plane_dims 12 101) ps ->
  exists ps',
    for_range (propagate G lorenz96 m sample lin_t_value) i count ps w
    = Some (ps', after w (List.repeat (Call "lorenz96") count))
    /\ List.length ps' = 5000%nat /\ Forall (plane_dims 12 101) ps'.
Proof.
  intros Hrun Hs. revert i ps w.
  induction count as [|count IH]; intros i ps w Hi Hlen Hps.
  - exists ps. simpl. unfold ret, after. rewrite app_nil_r.
    destruct w; auto.
  - destruct (propagate_step sample i ps w Hrun Hs ltac:(lia) Hlen Hps)
      as [ps1 [E1 [Hl1 Hp1]]].
    destruct (IH (S i) ps1 (after w [Call "lorenz96"]) ltac:(lia) Hl1 Hp1)
      as [ps2 [E2 [Hl2 Hp2]]].
    exists ps2. split; [|now split].
    simpl. unfold bind. rewrite E1, E2.
    now rewrite after_after.
Qed.

(** The sample cell draws once from the generator and calls [lorenz96]
    5000 times. *)
Lemma cell_sample_runs (w : world G) :
  draws_shape multivariate_normal -> run_shape lorenz96 ->
  exists s,
    cell_sample G multivariate_normal lorenz96 m w
    = Some (s, {| rng := snd (multivariate_normal (zeros 12) (eye 12) 5000 (rng w));
                  log := log w ++ Call "np.random.multivariate_normal"
                                  :: List.repeat (Call "lorenz96") 5000 |})
    /\ lin_t s = lin_t_value.
Proof.
  intros Hdraws Hrun.
  unfold cell_sample, call_random, emit, bind.
  cbn [fst snd rng log n deltat model].
  pose proof (Hdraws (zeros 12) (eye 12) 5000%Z (rng w)) as Hs.
  destruct (multivariate_normal _ _ _ _) as [smp g].
  cbn [fst snd] in Hs.
  change (List.length (zeros 12)) with 12%nat in Hs.
  change (Z.to_nat 5000) with 5000%nat in *.
  assert (Hk : int (float_of_Z 100 * 0.025 / 0.025) = Some 100%Z)
    by (vm_compute; reflexivity).
  unfold lift at 1. rewrite Hk.
  pose proof (transpose_shape smp 4999 12 Hs) as Ht.
  pose proof (zeros3_dims 12 (100 + 1) 5000 ltac:(lia)) as Hz.
  change (Z.to_nat 12) with 12%nat in Hz. change (Z.to_nat (100 + 1)) with 101%nat in Hz.
  destruct (propagate_loop (transpose smp) 5000 0 (zeros3 12 (100 + 1) 5000)
              {| rng := g; log := log w ++ [Call "np.random.multivariate_normal"] |}
              Hrun Ht ltac:(lia)
              ltac:(unfold zeros3; now rewrite repeat_length) Hz)
    as [ps [Eloop _]].
  fold lin_t_value. rewrite Eloop.
  eexists. split.
  - unfold ret, after. cbn [rng log]. rewrite <- app_assoc. reflexivity.
  - reflexivity.
Qed.

(** *** The plot cells and the linearisation-error cell *)

Lemma cell_uni_runs (s : sample_vars) (w : world G) :
  exists u, cell_uni G s w = Some (u, after w [Call "plotUniDensities"]).
Proof. eexists. reflexivity. Qed.

Lemma cell_multi_runs (s : sample_vars) (u : uni_vars) (w : world G) :
  exists v, cell_multi G s u w = Some (v, after w [Call "plotMultiDensities"]).
Proof. eexists. reflexivity. Qed.

Lemma cell_linerr_runs (s : sample_vars) (w : world G) :
  run_shape lorenz96 ->
  exists l,
    cell_linerr G compute_lin_error m s w
    = Some (l, after w [Call "compute_lin_error"; Call "plotL96_Linerr"]).
Proof.
  intros Hrun.
  destruct (column_in_range (xtrue m) 12 201 0 (xtrue_shape Hrun) ltac:(lia))
    as [x [Hx _]].
  unfold cell_linerr, call, emit, lift, ret, bind. rewrite Hx.
  eexists. unfold after. cbn [rng log]. rewrite <- app_assoc. reflexivity.
Qed.

(** *** The covariance cell *)

Local Abbreviation xB_value :=
  (lorenz96 initial_state forecast_length 0.025 150%Z 8.0).

Lemma xB_shape : run_shape lorenz96 -> has_shape xB_value 12 (Z.to_nat (10000 + 1)).
Proof.
  intros H.
  pose proof (H initial_state forecast_length 0.025 150%Z 8.0 10000%Z) as Hx.
  rewrite initial_state_length in Hx.
  apply Hx. vm_compute. reflexivity.
Qed.

Lemma lag_value : int (0.1 / 0.025) = Some 4%Z.
Proof. vm_compute. reflexivity. Qed.

(** The covariance cell calls [lorenz96] once, hands the run to
    [getBcanadian] with a lag of 4 steps, no maximal variance and a sample
    size of 10000, and plots. *)
Lemma cell_cov_runs (w : world G) :
  run_shape lorenz96 -> square_B getBcanadian ->
  exists top,
    amax (diag (fst (getBcanadian xB_value 4 None 10000))) = Some top
    /\ cell_cov G lorenz96 getBcanadian m w
       = Some ({| lag := 4; max_var := None; sample_size := 10000;
                  xB := xB_value;
                  B := fst (getBcanadian xB_value 4 None 10000);
                  Bcorr := snd (getBcanadian xB_value 4 None 10000);
                  mycmap := "BrBG"; vs := [- top; top] |},
               after w [Call "lorenz96"; Call "getBcanadian"; Call "tileplotB"]).
Proof.
  intros Hrun HB.
  pose proof (HB xB_value 4%Z None 10000%Z) as Hsq.
  destruct (xB_shape Hrun) as [Hrows _]. rewrite Hrows in Hsq.
  destruct (amax_diag_square _ 11 Hsq) as [top Htop].
  exists top. split; [exact Htop|].
  unfold cell_cov, call, emit, ret, bind.
  cbn [deltat x0 discard F model]. unfold lift at 1. rewrite lag_value.
  fold forecast_length. cbn [rng log fst snd]. unfold lift. rewrite Htop.
  unfold after. cbn [rng log]. rewrite <- !app_assoc. reflexivity.
Qed.

(** *** The observation cell *)

Local Abbreviation H_value := (snd (createH "1010" 12 3)).

Lemma cell_obs_runs (w : world G) :
  cell_obs G createH gen_obs m w
  = Some ({| obsgrid := "1010"; period_obs := 2; var_obs := 2; seed := 1;
             footprint := 3; p := fst (createH "1010" 12 3); H := H_value;
             tobs := fst (fst (fst (gen_obs grid (xtrue m) 2 H_value 2 1 (rng w))));
             y := snd (fst (fst (gen_obs grid (xtrue m) 2 H_value 2 1 (rng w))));
             R := snd (fst (gen_obs grid (xtrue m) 2 H_value 2 1 (rng w))) |},
          {| rng := snd (gen_obs grid (xtrue m) 2 H_value 2 1 (rng w));
             log := log w ++ [Call "createH"; Call "plotH"; Call "gen_obs";
                              Call "plotL96obs"] |}).
Proof.
  unfold cell_obs, call, call_random, emit, ret, bind.
  cbn [n t xtrue model rng log fst snd].
  destruct (gen_obs _ _ _ _ _ _ _) as [[[tobs y] R] g].
  cbn [fst snd rng log]. rewrite <- !app_assoc. reflexivity.
Qed.

(** *** The whole notebook *)

Lemma cell_setup_runs (w : world G) :
  cell_setup G w
  = Some (tt, after w [Shell "git clone https://github.com/darc-reading/darc-training-2025.git";
                       Magic "cd darc-training-2025"]).
Proof.
  unfold cell_setup, bind, emit, after. cbn [rng log]. now rewrite <- app_assoc.
Qed.

(** Run from top to bottom, the notebook completes, and its log is
    [pipeline_log]. *)
Lemma run_all_runs (w : world G) :
  draws_shape multivariate_normal -> run_shape lorenz96 -> square_B getBcanadian ->
  exists ns w',
    run_all G multivariate_normal lorenz96 compute_lin_error getBcanadian createH gen_obs w
    = Some (ns, w')
    /\ log w' = log w ++ pipeline_log
    /\ ns_model ns = m.
Proof.
  intros Hdraws Hrun HB.
  unfold run_all. unfold bind at 1. rewrite cell_setup_runs.
  unfold bind at 1. rewrite cell_model_runs.
  unfold bind at 1.
  match goal with |- context [cell_sample _ _ _ _ ?w0] =>
    destruct (cell_sample_runs w0 Hdraws Hrun) as [s [-> _]] end.
  unfold bind at 1.
  match goal with |- context [cell_uni _ _ ?w0] =>
    destruct (cell_uni_runs s w0) as [u ->] end.
  unfold bind at 1.
  match goal with |- context [cell_multi _ _ _ ?w0] =>
    destruct (cell_multi_runs s u w0) as [v ->] end.
  unfold bind at 1.
  match goal with |- context [cell_linerr _ _ _ _ ?w0] =>
    destruct (cell_linerr_runs s w0 Hrun) as [l ->] end.
  unfold bind at 1.
  match goal with |- context [cell_cov _ _ _ _ ?w0] =>
    destruct (cell_cov_runs w0 Hrun HB) as [top [_ ->]] end.
  unfold bind at 1. rewrite cell_obs_runs. unfold ret.
  eexists. eexists. split; [reflexivity|]. split; [|reflexivity].
  unfold after, pipeline_log. cbn [rng log].
  rewrite <- !app_assoc. reflexivity.
Qed.

End Runs.

(** ** The modelled helpers keep the shapes the notebook relies on *)

Section ToolsShapes.

Import Py Tools.
Local Open Scope float_scope.

Lemma trajectory_length (step : vec -> vec) (count : nat) (x : vec) :
  List.length (trajectory step count x) = count.
Proof.
  revert x. induction count as [|c IH]; intros x; simpl; [reflexivity|].
  now rewrite IH.
Qed.

Lemma trajectory_tl_length (step : vec * vec -> vec * vec) (count : nat) (xd : vec * vec) :
  List.length (trajectory_tl step count xd) = count.
Proof.
  revert xd. induction count as [|c IH]; intros xd; simpl; [reflexivity|].
  now rewrite IH.
Qed.

(** One row per variable, one column per state. *)
Lemma by_variable_shape (states : list vec) (n : nat) :
  has_shape (map (fun i => map (fun x => nth i x nan) states) (seq 0 n))
            n (List.length states).
Proof.
  split.
  - now rewrite length_map, length_seq.
  - apply Forall_forall. intros row Hin.
    apply in_map_iff in Hin. destruct Hin as [i [<- _]].
    now rewrite length_map.
Qed.

Lemma lorenz96_shape (x : vec) (tf dt : float) (d : Z) (F : float) (k : Z) :
  int (tf / dt) = Some k ->
  has_shape (lorenz96 x tf dt d F) (List.length x) (Z.to_nat (k + 1)).
Proof.
  intros Hk. unfold lorenz96. rewrite Hk. cbv zeta.
  pose proof (by_variable_shape
                (trajectory (rk4 F dt) (Z.to_nat (k + 1))
                   (Nat.iter (Z.to_nat d) (rk4 F dt) x))
                (List.length x)) as H.
  now rewrite trajectory_length in H.
Qed.

Lemma tangent_linear_shape (dx x : vec) (F lin_t dt : float) (k : Z) :
  int (lin_t / dt) = Some k ->
  has_shape (tangent_linear dx x F lin_t dt) (List.length x) (Z.to_nat (k + 1)).
Proof.
  intros Hk. unfold tangent_linear. rewrite Hk. cbv zeta.
  pose proof (by_variable_shape
                (trajectory_tl (rk4_tl F dt) (Z.to_nat (k + 1)) (x, dx))
                (List.length x)) as H.
  now rewrite trajectory_tl_length in H.
Qed.

Lemma covariance_shape (n : nat) (samples : list vec) :
  has_shape (covariance n samples) n n.
Proof.
  split.
  - unfold covariance. now rewrite length_map, length_seq.
  - apply Forall_forall. intros row Hin.
    apply in_map_iff in Hin. destruct Hin as [i [<- _]].
    now rewrite length_map, length_seq.
Qed.

Lemma scaled_shape (mv : option float) (b : mat) (r c : nat) :
  has_shape b r c -> has_shape (scaled mv b) r c.
Proof.
  intros [Hr Hc]. unfold scaled.
  destruct mv as [v|]; [|now split].
  destruct (amax (diag b)) as [top|]; [|now split].
  split.
  - now rewrite length_map.
  - apply Forall_forall. intros row Hin.
    apply in_map_iff in Hin. destruct Hin as [old [<- Hold]].
    unfold vscale. rewrite length_map.
    rewrite Forall_forall in Hc. now apply Hc.
Qed.

Lemma getBcanadian_shape (times : nat -> nat -> nat -> list nat)
  (x : mat) (lag : Z) (mv : option float) (size : Z) :
  has_shape (fst (getBcanadian times x lag mv size)) (List.length x) (List.length x).
Proof.
  unfold getBcanadian. cbn [fst].
  apply scaled_shape, covariance_shape.
Qed.

Lemma zipw_length {A B C} (f : A -> B -> C) (a : list A) (b : list B) :
  List.length a = List.length b -> List.length (zipw f a b) = List.length a.
Proof.
  revert b. induction a as [|x a IH]; intros [|y b] H; simpl in *; try lia.
  now rewrite IH by lia.
Qed.

Lemma draws_length {G} (sn : G -> float * G) (count : nat) (g : G) :
  List.length (fst (draws G sn count g)) = count.
Proof.
  revert g. induction count as [|c IH]; intros g; simpl; [reflexivity|].
  destruct (sn g) as [v g']. specialize (IH g').
  destruct (draws G sn c g') as [r g'']. simpl in *. now rewrite IH.
Qed.

Lemma lcg_rows_shape (mean : vec) (count : nat) (g : Z) :
  has_shape (fst (lcg_rows mean count g)) count (List.length mean).
Proof.
  revert g. induction count as [|c IH]; intros g; simpl.
  - split; [reflexivity | constructor].
  - pose proof (draws_length lcg_normal (List.length mean) g) as He.
    destruct (draws Z lcg_normal (List.length mean) g) as [e g'].
    specialize (IH g'). destruct (lcg_rows mean c g') as [rows g''].
    cbn [fst] in *. destruct IH as [Hr Hc]. split.
    + simpl. now rewrite Hr.
    + constructor; [|exact Hc].
      unfold vadd. now rewrite zipw_length by lia.
Qed.

Lemma lcg_draws_shape (mean : vec) (cov : mat) (size : Z) (g : Z) :
  has_shape (fst (lcg_multivariate_normal mean cov size g))
            (Z.to_nat size) (List.length mean).
Proof. apply lcg_rows_shape. Qed.

End ToolsShapes.

(** ** Data flow in the text *)

Section Flow.

Import Source.
Local Open Scope string_scope.

(** The slice is made of statements of the program, and it keeps every
    statement that binds a wanted name. *)
Lemma slice_incl (backwards : list stmt) :
  forall wanted s, In s (slice wanted backwards) -> In s backwards.
Proof.
  induction backwards as [|x r IH]; intros wanted s Hin; simpl in *; [exact Hin|].
  destruct (existsb _ (defs x)).
  - destruct Hin as [-> | Hin]; [now left | right; eauto].
  - right. eauto.
Qed.

Lemma mem_app_r (x : string) (a b : list string) :
  mem x b = true -> mem x (a ++ b) = true.
Proof.
  unfold mem. rewrite existsb_app. intros ->. apply orb_true_r.
Qed.

Lemma slice_keeps (backwards : list stmt) :
  forall wanted s d,
    In s backwards -> In d (defs s) -> mem d wanted = true ->
    In s (slice wanted backwards).
Proof.
  induction backwards as [|x r IH]; intros wanted s d Hin Hd Hw; simpl in *; [exact Hin|].
  destruct Hin as [-> | Hin].
  - assert (E : existsb (fun d0 => mem d0 wanted) (defs s) = true).
    { apply existsb_exists. now exists d. }
    rewrite E. now left.
  - destruct (existsb _ (defs x)).
    + right. apply (IH _ s d); auto. now apply mem_app_r.
    + now apply (IH _ s d).
Qed.

(** Every statement that binds [v] is among those [v] depends on. *)
Lemma binder_in_slice (v : string) (s : stmt) :
  In s program -> binds v s = true -> In s (depends_on v).
Proof.
  intros Hin Hb. unfold depends_on. rewrite <- in_rev.
  unfold binds, mem in Hb. apply existsb_exists in Hb.
  destruct Hb as [d [Hd Heq]]. apply String.eqb_eq in Heq. subst d.
  apply (slice_keeps _ _ s v); [now rewrite <- in_rev | exact Hd |].
  simpl. now rewrite String.eqb_refl.
Qed.

(** The covariance matrix depends on one call of [lorenz96], the one that
    binds [xB]; the observations depend on one, the one that binds [xtrue]. *)
Lemma runs_behind_B : map place (calls_to "lorenz96" (depends_on "B")) = [(16, ["xB"])].
Proof. vm_compute. reflexivity. Qed.

Lemma runs_behind_y : map place (calls_to "lorenz96" (depends_on "y")) = [(5, ["xtrue"])].
Proof. vm_compute. reflexivity. Qed.

Lemma program_scoped : scoped builtins program = true.
Proof. vm_compute. reflexivity. Qed.

End Flow.

(** ** The truth, the covariance and the observations *)

Section Claims.

Import Py Notebook Source.
Local Open Scope float_scope.

Variable G : Type.
Variable multivariate_normal : vec -> mat -> Z -> G -> mat * G.
Variable lorenz96 : vec -> float -> float -> Z -> float -> mat.
Variable compute_lin_error : vec -> vec -> float -> float -> float -> vec * mat * mat.
Variable getBcanadian : mat -> Z -> option float -> Z -> mat * mat.
Variable createH : string -> Z -> Z -> Z * mat.
Variable gen_obs : vec -> mat -> Z -> mat -> Z -> Z -> G -> (vec * mat * mat) * G.
Variable sample_times : nat -> nat -> nat -> list nat.

(** C1.  The covariance cell makes one call of [lorenz96], the long run
    [xB] of [sample_size * deltat = 250] time units from the initial state
    of the truth run, and hands it to [getBcanadian] with the lag
    [int(0.1/deltat) = 4], no maximal variance and [sample_size = 10000].
    With [getBcanadian] as the notebook describes it, [B] is the sample
    covariance of the lagged differences [(x(t+4) - x(t))/sqrt(2)] of that
    run and [Bcorr] its correlation matrix.  In the text of the notebook the
    only call of [lorenz96] that [B] depends on is the one that binds [xB]:
    neither the truth run nor the sample runs reach [B]. *)
Theorem B_from_one_long_run (w : world G) :
  run_shape lorenz96 ->
  exists c w',
    cell_cov G lorenz96 (Tools.getBcanadian sample_times) (model lorenz96) w = Some (c, w')
    /\ log w' = log w ++ [Call "lorenz96"; Call "getBcanadian"; Call "tileplotB"]
    /\ xB c = lorenz96 initial_state 250 0.025 150 8
    /\ int (0.1 / deltat (model lorenz96)) = Some (lag c)
    /\ lag c = 4%Z /\ max_var c = None /\ sample_size c = 10000%Z
    /\ (B c, Bcorr c) = Tools.getBcanadian sample_times (xB c) (lag c) (max_var c) (sample_size c)
    /\ B c = Tools.covariance 12
               (map (fun k => map (fun row => (nth (k + 4) row nan - nth k row nan) / sqrt 2)
                                  (xB c))
                    (sample_times (ncols (xB c)) 4 (Z.to_nat 10000)))
    /\ Bcorr c = Tools.correlation (B c)
    /\ map place (calls_to "lorenz96" (depends_on "B")) = [(16%nat, ["xB"%string])].
Proof.
  intros Hrun.
  destruct (cell_cov_runs G lorenz96 (Tools.getBcanadian sample_times) w Hrun
              (getBcanadian_shape sample_times)) as [top [_ Hcell]].
  eexists. eexists. split; [exact Hcell|].
  cbn [lag max_var sample_size xB B Bcorr deltat model].
  split; [reflexivity|].
  split; [unfold forecast_length; f_equal; apply float_eq; vm_compute; reflexivity|].
  split; [apply lag_value|].
  do 3 (split; [reflexivity|]).
  split; [now destruct (Tools.getBcanadian _ _ _ _ _)|].
  split.
  - unfold Tools.getBcanadian, Tools.lagged_differences, Tools.scaled. cbn [fst].
    pose proof (xB_shape lorenz96 Hrun) as [Hrows _].
    unfold forecast_length in *. rewrite Hrows. reflexivity.
  - split; [reflexivity | apply runs_behind_B].
Qed.

(** C3.  The truth [xtrue] is the output of the [lorenz96] integration of
    the parameter cell, and the observation cell applies [gen_obs] to that
    same array and to the time grid of that run: whatever the helpers are,
    the observation times, the observations and their error covariance are
    the result of [gen_obs] on [xtrue].  In the text, the one call of
    [lorenz96] the observations depend on is the one that binds [xtrue]. *)
Theorem observations_of_the_truth_run (w w' : world G) :
  exists m o w1 w2,
    cell_model G lorenz96 w = Some (m, w1)
    /\ xtrue m = lorenz96 (x0 m) (tf m) (deltat m) (discard m) (F m)
    /\ cell_obs G createH gen_obs m w' = Some (o, w2)
    /\ (tobs o, y o, R o)
       = fst (gen_obs (t m) (xtrue m) (period_obs o) (H o) (var_obs o) (seed o) (rng w'))
    /\ (p o, H o) = createH (obsgrid o) (n m) (footprint o)
    /\ map place (calls_to "lorenz96" (depends_on "y")) = [(5%nat, ["xtrue"%string])]
    /\ map place (calls_to "lorenz96" (depends_on "xtrue")) = [(5%nat, ["xtrue"%string])].
Proof.
  exists (model lorenz96). eexists. eexists. eexists.
  split; [apply cell_model_runs|].
  split; [reflexivity|].
  split; [apply cell_obs_runs|].
  cbn [tobs y R p H obsgrid footprint period_obs var_obs seed t xtrue n model].
  split; [now destruct (gen_obs _ _ _ _ _ _ _) as [[[? ?] ?] ?]|].
  split; [now destruct (createH _ _ _)|].
  split; [apply runs_behind_y | vm_compute; reflexivity].
Qed.

(** C4.  Run from top to bottom with helpers that return arrays of the
    shapes the notebook indexes, the notebook completes and its calls are
    those of [pipeline_log], in that order: the truth run and its plot, the
    draw of the sample and its 5000 runs with their plots and the
    linearisation error, the long run and [getBcanadian] with its plot, then
    [createH], [gen_obs] and the plot of the observations.  In the text the
    statements that bind [xtrue], [prop_sample], [B] and [y] come in this
    order, every statement reads only names bound by earlier statements, and
    nothing that one of these four depends on lies in a later cell. *)
Theorem pipeline_runs_in_order (w : world G) :
  draws_shape multivariate_normal -> run_shape lorenz96 -> square_B getBcanadian ->
  (exists ns w',
     run_all G multivariate_normal lorenz96 compute_lin_error getBcanadian createH gen_obs w
     = Some (ns, w')
     /\ log w' = log w ++ pipeline_log)
  /\ position (binds "xtrue") program = Some 16%nat
  /\ position (binds "prop_sample") program = Some 21%nat
  /\ position (binds "B") program = Some 36%nat
  /\ position (binds "y") program = Some 48%nat
  /\ option_map calls (nth_error program 49) = Some ["plotL96obs"%string]
  /\ List.length program = 50%nat
  /\ scoped builtins program = true
  /\ forallb (fun s => cell s <=? 5)%nat (depends_on "xtrue") = true
  /\ forallb (fun s => cell s <=? 7)%nat (depends_on "prop_sample") = true
  /\ forallb (fun s => cell s <=? 16)%nat (depends_on "B") = true
  /\ forallb (fun s => cell s <=? 20)%nat (depends_on "y") = true.
Proof.
  intros Hdraws Hrun HB. split.
  - destruct (run_all_runs G multivariate_normal lorenz96 compute_lin_error
                getBcanadian createH gen_obs w Hdraws Hrun HB) as [ns [w' [E [Hlog _]]]].
    now exists ns, w'.
  - repeat (split; [vm_compute; reflexivity|]). vm_compute. reflexivity.
Qed.

End Claims.

(** ** What the file contains *)

Section Contents.

Import Source.
Local Open Scope string_scope.

Lemma imported_modules :
  modules = ["numpy"; "tools.L96_model"; "tools.obs"; "tools.cov"; "tools.plots";
             "tools.diag"].
Proof. vm_compute. reflexivity. Qed.

Lemma helpers_called :
  numerical_helpers
  = ["lorenz96"; "compute_lin_error"; "getBcanadian"; "createH"; "gen_obs"].
Proof. vm_compute. reflexivity. Qed.

Lemma plots_called :
  filter plots called
  = ["plotL96"; "plotUniDensities"; "plotMultiDensities"; "plotL96_Linerr";
     "tileplotB"; "plotH"; "plotL96obs"].
Proof. vm_compute. reflexivity. Qed.

Lemma others_called :
  filter (fun f => negb (from_tools f)) called
  = ["np.arange"; "np.repeat"; "np.random.multivariate_normal"; "np.zeros"; "np.eye";
     "int"; "range"; "np.ones"; "np.amax"; "np.diag"].
Proof. vm_compute. reflexivity. Qed.

Lemma callees_classified :
  forallb (fun f => from_tools f || from_numpy f || mem f builtins) called = true.
Proof. vm_compute. reflexivity. Qed.

Lemma no_compound_statement : filter (is_kind Compound) program = [].
Proof. vm_compute. reflexivity. Qed.

Lemma no_function_defined : filter defines_function program = [].
Proof. vm_compute. reflexivity. Qed.

Lemma statements_classified : forallb classified program = true.
Proof. vm_compute. reflexivity. Qed.

Lemma escapes_of_the_setup_cell :
  map (fun s => (cell s, kind s, command s)) (filter escapes program)
  = [(1%nat, Shell_escape,
      "git clone https://github.com/darc-reading/darc-training-2025.git");
     (1%nat, Magic_escape, "cd darc-training-2025")].
Proof. vm_compute. reflexivity. Qed.

(** A statement of the program found by a computed search. *)
Lemma find_in_program (f : stmt -> bool) (s : stmt) :
  find f program = Some s -> In s program /\ f s = true.
Proof. apply find_some. Qed.

(** C5, as stated, fails twice.  The sample is drawn by
    [np.random.multivariate_normal], a numerical operation that comes from
    numpy and not from [tools]; and the first code cell is a shell command
    and a magic, neither an assignment nor a call of an import nor a plot. *)
Lemma numpy_and_the_setup_cell_are_not_tools :
  ~ calls_only_tools /\ ~ only_assignments_and_tools_calls.
Proof.
  split.
  - intros H.
    destruct (find (fun s => mem "np.random.multivariate_normal" (calls s)) program)
      as [s|] eqn:E; [|vm_compute in E; discriminate].
    destruct (find_in_program _ s E) as [Hin Hcall].
    unfold mem in Hcall. apply existsb_exists in Hcall.
    destruct Hcall as [f [Hf Heq]]. apply String.eqb_eq in Heq. subst f.
    specialize (H s _ Hin Hf). vm_compute in H. discriminate.
  - intros H.
    destruct (find escapes program) as [s|] eqn:E; [|vm_compute in E; discriminate].
    destruct (find_in_program _ s E) as [Hin _].
    specialize (H s Hin).
    vm_compute in E. injection E as <-. vm_compute in H. discriminate.
Qed.

(** C5, amended.  The five numerical helpers and the seven plotting
    functions the notebook calls are bound by [from tools.... import]
    statements and by nothing else in the file, which defines no function.
    Every other function it calls is numpy's or Python's own, and every
    statement is one of the two escapes of the setup cell, an import, an
    assignment, the head of the one loop, or a plot. *)
Theorem helpers_are_imported_not_written :
  numerical_helpers
  = ["lorenz96"; "compute_lin_error"; "getBcanadian"; "createH"; "gen_obs"]
  /\ filter plots called
     = ["plotL96"; "plotUniDensities"; "plotMultiDensities"; "plotL96_Linerr";
        "tileplotB"; "plotH"; "plotL96obs"]
  /\ forallb (fun f => forallb (fun s => is_kind Import_stmt s || negb (binds f s)) program)
             (numerical_helpers ++ filter plots called) = true
  /\ filter defines_function program = []
  /\ filter (fun f => negb (from_tools f)) called
     = ["np.arange"; "np.repeat"; "np.random.multivariate_normal"; "np.zeros"; "np.eye";
        "int"; "range"; "np.ones"; "np.amax"; "np.diag"]
  /\ forallb (fun f => from_tools f || from_numpy f || mem f builtins) called = true
  /\ forallb classified program = true.
Proof.
  split; [apply helpers_called|].
  split; [apply plots_called|].
  split; [vm_compute; reflexivity|].
  split; [apply no_function_defined|].
  split; [apply others_called|].
  split; [apply callees_classified | apply statements_classified].
Qed.

(** C6, as stated, fails.  The code cells do not consist of parameter
    blocks, calls of numerical functions and plots alone: the head of the
    loop, [for i in range(n_sample):], is none of these (nor are the imports
    and the two escapes of the setup cell).  And the numerical functions
    called are not four or five: next to the five helpers imported from
    [tools] the notebook calls eight of numpy's, thirteen in all. *)
Lemma the_loop_head_and_numpy_are_code_too :
  ~ only_parameters_helpers_and_plots
  /\ numerical_calls
     = ["np.arange"; "np.repeat"; "lorenz96"; "np.random.multivariate_normal";
        "np.zeros"; "np.eye"; "np.ones"; "compute_lin_error"; "getBcanadian";
        "np.amax"; "np.diag"; "createH"; "gen_obs"]
  /\ ~ (List.length numerical_calls <= 5)%nat.
Proof.
  split; [|split].
  - intros H.
    destruct (find (is_kind For_stmt) program) as [s|] eqn:E;
      [|vm_compute in E; discriminate].
    destruct (find_in_program _ s E) as [Hin _].
    specialize (H s Hin).
    vm_compute in E. injection E as <-. vm_compute in H. discriminate.
  - vm_compute. reflexivity.
  - vm_compute. lia.
Qed.

(** C6, amended.  The file has 453 lines, fewer than 500.  It imports numpy
    and modules of [tools] and nothing else and calls only those, [int] and
    [range], so no thread or process is started from it.  Its code cells
    consist of the two escapes of the setup cell, seven import statements,
    33 assignments, the head of one loop and seven plotting calls; the
    numerical functions called are the five helpers imported from [tools]
    ([lorenz96], [compute_lin_error], [getBcanadian], [createH], [gen_obs])
    and eight of numpy's.  Each code cell follows a markdown cell. *)
Theorem small_single_threaded_script :
  Ipynb.lines Ipynb.file = 453%nat
  /\ (Ipynb.lines Ipynb.file < 500)%nat
  /\ modules = ["numpy"; "tools.L96_model"; "tools.obs"; "tools.cov"; "tools.plots";
                "tools.diag"]
  /\ forallb (fun f => from_tools f || from_numpy f || mem f builtins) called = true
  /\ filter (is_kind Compound) program = []
  /\ forallb classified program = true
  /\ map (fun s => (cell s, kind s, command s)) (filter escapes program)
     = [(1%nat, Shell_escape,
         "git clone https://github.com/darc-reading/darc-training-2025.git");
        (1%nat, Magic_escape, "cd darc-training-2025")]
  /\ List.length (filter (is_kind Import_stmt) program) = 7%nat
  /\ List.length (filter (fun s => is_kind Assign s || is_kind AugAssign s) program) = 33%nat
  /\ map (fun s => (cell s, calls s)) (filter (is_kind For_stmt) program)
     = [(7%nat, ["range"])]
  /\ map calls (filter is_plot program)
     = [["plotL96"]; ["plotUniDensities"]; ["plotMultiDensities"]; ["plotL96_Linerr"];
        ["tileplotB"]; ["plotH"]; ["plotL96obs"]]
  /\ List.length program = 50%nat
  /\ numerical_helpers
     = ["lorenz96"; "compute_lin_error"; "getBcanadian"; "createH"; "gen_obs"]
  /\ filter from_numpy called
     = ["np.arange"; "np.repeat"; "np.random.multivariate_normal"; "np.zeros"; "np.eye";
        "np.ones"; "np.amax"; "np.diag"]
  /\ prose_before_code Ipynb.code Ipynb.cells = true
  /\ List.length (filter (fun c => Ipynb.cell_type_eqb (Ipynb.kind c) Ipynb.markdown)
                         Ipynb.cells) = 12%nat
  /\ List.length (filter (fun c => Ipynb.cell_type_eqb (Ipynb.kind c) Ipynb.code)
                         Ipynb.cells) = 11%nat.
Proof.
  assert (Hlines : Ipynb.lines Ipynb.file = 453%nat) by (vm_compute; reflexivity).
  split; [exact Hlines|].
  split; [rewrite Hlines; lia|].
  split; [apply imported_modules|].
  split; [apply callees_classified|].
  split; [apply no_compound_statement|].
  split; [apply statements_classified|].
  split; [apply escapes_of_the_setup_cell|].
  do 5 (split; [vm_compute; reflexivity|]).
  split; [apply helpers_called|].
  repeat split; vm_compute; reflexivity.
Qed.

(** C7, as stated, fails: the first code cell runs [git clone] on an
    https URL, which fetches the [tools] repository over the network and
    writes it into the working directory; the output the cell left in the
    file reports the transfer. *)
Lemma the_setup_cell_clones_a_repository :
  ~ stays_inside
  /\ In "Receiving objects: 100% (153/153), 4.64 MiB | 7.20 MiB/s, done.\n"
        (Ipynb.stdout (nth 1 Ipynb.cells (Ipynb.cell_of Ipynb.JNull))).
Proof.
  split.
  - intros H.
    destruct (find clones program) as [s|] eqn:E; [|vm_compute in E; discriminate].
    destruct (find_in_program _ s E) as [Hin Hc].
    rewrite (H s Hin) in Hc. discriminate.
  - vm_compute. tauto.
Qed.

(** C7, amended.  The two statements that leave the Python process are
    those of the setup cell, [git clone] and [cd].  Everything else is
    Python that imports numpy and [tools] only, has no compound statement
    (so no [try], [except], [finally] or [with]: no failure recovery) and
    calls nothing but its imports, numpy, [int] and [range]: the notebook's
    own code starts no thread, opens no connection and writes no file. *)
Theorem only_the_setup_cell_leaves_python :
  map (fun s => (cell s, kind s, command s)) (filter escapes program)
  = [(1%nat, Shell_escape,
      "git clone https://github.com/darc-reading/darc-training-2025.git");
     (1%nat, Magic_escape, "cd darc-training-2025")]
  /\ map place (filter clones program) = [(1%nat, [])]
  /\ modules = ["numpy"; "tools.L96_model"; "tools.obs"; "tools.cov"; "tools.plots";
                "tools.diag"]
  /\ filter (is_kind Compound) program = []
  /\ forallb (fun f => from_tools f || from_numpy f || mem f builtins) called = true
  /\ forallb classified program = true.
Proof.
  split; [apply escapes_of_the_setup_cell|].
  split; [vm_compute; reflexivity|].
  split; [apply imported_modules|].
  split; [apply no_compound_statement|].
  split; [apply callees_classified | apply statements_classified].
Qed.

End Contents.

(** ** The linearisation error *)

Section LinearisationError.

Import Py Tools Notebook.
Local Open Scope float_scope.

Lemma nth_zipw {A B C} (f : A -> B -> C) (a : list A) (b : list B) (k : nat)
  (da : A) (db : B) (dc : C) :
  (k < List.length a)%nat -> List.length a = List.length b ->
  nth k (zipw f a b) dc = f (nth k a da) (nth k b db).
Proof.
  revert b k. induction a as [|x a IH]; intros [|y b] k Hk Hlen; simpl in *; try lia.
  destruct k as [|k]; [reflexivity|]. apply IH; lia.
Qed.

Lemma zipw_shape (f : float -> float -> float) (a b : mat) (r c : nat) :
  has_shape a r c -> has_shape b r c -> has_shape (zipw (zipw f) a b) r c.
Proof.
  revert b r. induction a as [|x a IH]; intros [|y b] r [Hr Hc] [Hr' Hc'];
    simpl in *; subst; try discriminate.
  - split; [reflexivity | constructor].
  - inversion Hc; inversion Hc'; subst.
    destruct (IH b (List.length a)) as [Hl Hf]; [now split | split; [lia | assumption] |].
    split; [simpl; now rewrite Hl|].
    constructor; [|exact Hf]. now rewrite zipw_length by lia.
Qed.

(** A column of an entrywise combination is the combination of the
    columns. *)
Lemma col_zipw (f : float -> float -> float) (a b : mat) (r c k : nat) :
  has_shape a r c -> has_shape b r c -> (k < c)%nat ->
  col (zipw (zipw f) a b) k = zipw f (col a k) (col b k).
Proof.
  revert b r. induction a as [|x a IH]; intros [|y b] r [Hr Hc] [Hr' Hc'] Hk;
    simpl in *; subst; try discriminate; [reflexivity|].
  inversion Hc; inversion Hc'; subst.
  rewrite (nth_zipw f x y k nan nan nan) by lia.
  f_equal. apply (IH b (List.length a)); [now split | split; [lia | assumption] | exact Hk].
Qed.

Lemma nth_map_seq {A} (f : nat -> A) (c k : nat) (d : A) :
  (k < c)%nat -> nth k (map f (seq 0 c)) d = f k.
Proof.
  intros Hk. rewrite (nth_indep _ d (f 0%nat)) by (now rewrite length_map, length_seq).
  rewrite map_nth, seq_nth by exact Hk. reflexivity.
Qed.

Variable NL : vec -> float -> float -> Z -> float -> mat.
Variable TL : vec -> vec -> float -> float -> float -> mat.

(** C2.  Let the nonlinear model and the tangent-linear model return one
    column per time step from [0] to [K = int(lin_t/deltat)].  Then, with
    [compute_lin_error] as the notebook describes it, for every step [k] in
    that range and every state [x] and increment [Delta_x], entry [k] of the
    returned [lin_error] is the L2 norm of
    [NL(x + Delta_x, k) - NL(x, k) - TL(Delta_x, k)], column [k] of the
    returned [NLdiff] is the difference of the two nonlinear runs and column
    [k] of [TLdiff] is the tangent-linear model applied to [Delta_x]. *)
Theorem lin_error_is_the_norm_of_the_discrepancy
  (Delta_x x : vec) (F lin_t deltat : float) (K : Z) (k : nat) :
  run_shape NL ->
  has_shape (TL Delta_x x F lin_t deltat) (List.length x) (Z.to_nat (K + 1)) ->
  int (lin_t / deltat) = Some K -> (0 <= K)%Z ->
  List.length Delta_x = List.length x -> x <> [] ->
  (k <= Z.to_nat K)%nat ->
  let r := compute_lin_error NL TL Delta_x x F lin_t deltat in
  let NLat (x0 : vec) := col (NL x0 lin_t deltat 0 F) k in
  let TLat := col (TL Delta_x x F lin_t deltat) k in
  List.length (fst (fst r)) = Z.to_nat (K + 1)
  /\ nth k (fst (fst r)) nan = norm2 (vsub (vsub (NLat (vadd x Delta_x)) (NLat x)) TLat)
  /\ col (snd (fst r)) k = vsub (NLat (vadd x Delta_x)) (NLat x)
  /\ col (snd r) k = TLat.
Proof.
  intros Hrun HTL HK HK0 Hlen Hx Hk r NLat TLat.
  assert (Hc : (k < Z.to_nat (K + 1))%nat) by lia.
  pose proof (Hrun x lin_t deltat 0%Z F K HK) as HA.
  pose proof (Hrun (vadd x Delta_x) lin_t deltat 0%Z F K HK) as HB.
  unfold vadd in HB at 2. rewrite zipw_length in HB by lia.
  pose proof (zipw_shape sub _ _ _ _ HB HA) as HD.
  pose proof (zipw_shape sub _ _ _ _ HD HTL) as HE.
  destruct x as [|x1 xs]; [contradiction|]. cbn [List.length] in *.
  subst r NLat TLat. unfold compute_lin_error, msub, vsub. cbv zeta. cbn [fst snd].
  match goal with |- context [ncols ?e] =>
    replace (ncols e) with (Z.to_nat (K + 1)) by (symmetry; exact (ncols_shape _ _ _ HE))
  end.
  split; [now rewrite length_map, length_seq|].
  split; [|split; [|reflexivity]].
  - rewrite nth_map_seq by exact Hc. f_equal.
    etransitivity; [exact (col_zipw sub _ _ _ _ k HD HTL Hc)|].
    f_equal. exact (col_zipw sub _ _ _ _ k HB HA Hc).
  - exact (col_zipw sub _ _ _ _ k HB HA Hc).
Qed.

End LinearisationError.

(** ** The observation operator and the observations *)

Section Observations.

Import Py Tools Notebook.
Local Open Scope float_scope.

Variable weight : Z -> Z -> float.
Variable G : Type.
Variable seeded : Z -> G -> G.
Variable standard_normal : G -> float * G.
Variable lorenz96 : vec -> float -> float -> Z -> float -> mat.
Variable any_createH : string -> Z -> Z -> Z * mat.
Variable any_gen_obs : vec -> mat -> Z -> mat -> Z -> Z -> G -> (vec * mat * mat) * G.

Lemma upto_length (k : Z) : List.length (upto k) = Z.to_nat k.
Proof. unfold upto. now rewrite length_map, length_seq. Qed.

Lemma rows_shape {A} (row : A -> vec) (l : list A) (c : nat) :
  (forall a, List.length (row a) = c) -> has_shape (map row l) (List.length l) c.
Proof.
  intros Hrow. split; [now rewrite length_map|].
  apply Forall_forall. intros r Hin.
  apply in_map_iff in Hin. destruct Hin as [a [<- _]]. apply Hrow.
Qed.

Lemma upto_rows_shape (row : Z -> vec) (k : Z) (c : nat) :
  (forall a, List.length (row a) = c) -> has_shape (map row (upto k)) (Z.to_nat k) c.
Proof.
  intros Hrow. rewrite <- (upto_length k). now apply rows_shape.
Qed.

Lemma unit_row_length (n i : Z) : List.length (unit_row n i) = Z.to_nat n.
Proof. unfold unit_row. now rewrite length_map, length_seq. Qed.

Lemma footprint_row_length (n f c : Z) :
  List.length (footprint_row weight n f c) = Z.to_nat n.
Proof. unfold footprint_row. now rewrite length_map, length_seq. Qed.

(** Observation [k] is the one operator applied to the state of its time,
    plus the noise of its turn: the [k]-th block of draws. *)
Lemma observe_nth (h : mat) (sd : float) (xs : list vec) (g : G) (k : nat) :
  (k < List.length xs)%nat ->
  nth k (fst (observe G standard_normal h sd xs g)) []
  = vadd (matvec h (nth k xs []))
         (vscale sd (noise G standard_normal (List.length h) k g)).
Proof.
  revert g k. induction xs as [|x r IH]; intros g k Hk; simpl in Hk; [lia|].
  simpl.
  destruct (draws G standard_normal (List.length h) g) as [e g'] eqn:Ed.
  specialize (IH g').
  destruct (observe G standard_normal h sd r g') as [ys g''].
  destruct k as [|k]; simpl; rewrite Ed; cbn [fst snd]; [reflexivity|].
  apply IH. lia.
Qed.

Lemma observe_lengths (h : mat) (sd : float) (xs : list vec) (g : G) :
  Forall (fun o => List.length o = List.length h)
         (fst (observe G standard_normal h sd xs g))
  /\ List.length (fst (observe G standard_normal h sd xs g)) = List.length xs.
Proof.
  revert g. induction xs as [|x r IH]; intros g; simpl; [split; [constructor | reflexivity]|].
  pose proof (draws_length standard_normal (List.length h) g) as He.
  destruct (draws G standard_normal (List.length h) g) as [e g'].
  specialize (IH g').
  destruct (observe G standard_normal h sd r g') as [ys g'']. cbn [fst] in *.
  destruct IH as [Hall Hlen]. split; [|simpl; now rewrite Hlen].
  constructor; [|exact Hall].
  unfold vadd, matvec, vscale. rewrite zipw_length; now rewrite !length_map.
Qed.

Lemma by_index (o : vec) : map (fun i => nth i o nan) (seq 0 (List.length o)) = o.
Proof.
  apply nth_ext with (d := nan) (d' := nan).
  - now rewrite length_map, length_seq.
  - intros i Hi. rewrite length_map, length_seq in Hi.
    now rewrite nth_map_seq.
Qed.

(** Column [k] of the observations stored by variable is observation [k]. *)
Lemma col_by_variable (ys : list vec) (r k : nat) :
  Forall (fun o => List.length o = r) ys -> (k < List.length ys)%nat ->
  col (map (fun i => map (fun o => nth i o nan) ys) (seq 0 r)) k = nth k ys [].
Proof.
  intros Hall Hk. unfold col. rewrite map_map.
  assert (Hr : List.length (nth k ys []) = r).
  { rewrite Forall_forall in Hall. apply Hall, nth_In, Hk. }
  rewrite <- (by_index (nth k ys [])), Hr.
  apply map_ext. intros i.
  rewrite (nth_indep _ nan ((fun o : vec => nth i o nan) []))
    by (now rewrite length_map).
  exact (map_nth (fun o : vec => nth i o nan) ys [] k).
Qed.

(** C8.  [createH], as the notebook describes it, accepts the five options
    ['all'], ['1010'], ['landsea'], ['foot_cent'] and ['foot_6'] and no
    other; for each it returns a number [p] of observations ([n], [n/2],
    [n/2], [1] and [6]) and one matrix [H] of [p] rows over the [n]
    variables; the notebook's call, with ['1010'], [n = 12] and footprint 3,
    gives the six unit rows of the even variables.  [gen_obs], as the
    notebook describes it, uses the one matrix it is given at every
    observation time: [y] has one row per row of [H] and one column per
    observation time, and column [k] is [H] applied to the state at the
    [k]-th observation time plus the standard deviation times the [k]-th
    block of draws, which does not depend on [H] beyond its number of rows.
    In the notebook itself, whatever the helpers are, [createH] is called
    once and the matrix it returns is the one [gen_obs] is called with. *)
Theorem one_operator_for_all_times (obsgrid : string) (n footprint : Z) :
  (if Source.mem obsgrid obsgrids
   then exists p H,
       createH weight obsgrid n footprint = Some (p, H)
       /\ has_shape H (Z.to_nat p) (Z.to_nat n)
       /\ p = (if String.eqb obsgrid "all" then n
               else if String.eqb obsgrid "1010" || String.eqb obsgrid "landsea"
                    then n / 2
                    else if String.eqb obsgrid "foot_cent" then 1 else 6)%Z
   else createH weight obsgrid n footprint = None)
  /\ createH weight "1010" 12 3
     = Some (6%Z, map (fun k => unit_row 12 (2 * k)) [0; 1; 2; 3; 4; 5]%Z)
  /\ (forall (t : vec) (xtrue : mat) (period_obs : Z) (H : mat) (var_obs seed : Z) (g : G),
      let states := every (Z.to_nat period_obs) 0 (map (col xtrue) (seq 0 (ncols xtrue))) in
      let y := snd (fst (fst (gen_obs G seeded standard_normal t xtrue period_obs H
                                var_obs seed g))) in
      has_shape y (List.length H) (List.length states)
      /\ forall k, (k < List.length states)%nat ->
           col y k
           = vadd (matvec H (nth k states []))
                  (vscale (sqrt (float_of_Z var_obs))
                     (noise G standard_normal (List.length H) k (seeded seed g))))
  /\ (forall w : world G,
      exists o w',
        cell_obs G any_createH any_gen_obs (model lorenz96) w = Some (o, w')
        /\ (p o, Notebook.H o) = any_createH "1010" 12%Z 3%Z
        /\ (tobs o, y o, R o)
           = fst (any_gen_obs grid (xtrue (model lorenz96)) 2 (Notebook.H o) 2 1 (rng w))
        /\ log w' = log w ++ [Call "createH"; Call "plotH"; Call "gen_obs";
                              Call "plotL96obs"]).
Proof.
  split; [|split; [reflexivity|split]].
  - unfold Source.mem, obsgrids, createH. cbn [existsb].
    destruct (String.eqb obsgrid "all") eqn:E1.
    { exists n, (map (unit_row n) (upto n)). split; [reflexivity|]. split; [|reflexivity].
      apply upto_rows_shape, unit_row_length. }
    destruct (String.eqb obsgrid "1010") eqn:E2.
    { eexists. eexists. split; [reflexivity|]. split; [|reflexivity].
      apply upto_rows_shape. intros a. apply unit_row_length. }
    destruct (String.eqb obsgrid "landsea") eqn:E3.
    { eexists. eexists. split; [reflexivity|]. split; [|reflexivity].
      apply upto_rows_shape, unit_row_length. }
    destruct (String.eqb obsgrid "foot_cent") eqn:E4.
    { eexists. eexists. split; [reflexivity|]. split; [|reflexivity].
      apply (rows_shape (footprint_row weight n footprint) [(n / 2)%Z]).
      intros a. apply footprint_row_length. }
    destruct (String.eqb obsgrid "foot_6") eqn:E5.
    { eexists. eexists. split; [reflexivity|]. split; [|reflexivity].
      apply (upto_rows_shape _ 6). intros a. apply footprint_row_length. }
    reflexivity.
  - intros t xtrue period_obs H var_obs seed g states y.
    subst y. unfold gen_obs. fold states.
    pose proof (observe_nth H (sqrt (float_of_Z var_obs)) states (seeded seed g)) as Hnth.
    destruct (observe_lengths H (sqrt (float_of_Z var_obs)) states (seeded seed g))
      as [Hall Hcount].
    destruct (observe G standard_normal H _ states (seeded seed g)) as [ys g'].
    cbn [fst snd] in *. split.
    + rewrite <- Hcount. apply by_variable_shape.
    + intros k Hk. rewrite <- (Hnth k Hk).
      apply col_by_variable; [exact Hall | lia].
  - intros w. eexists. eexists. split; [apply cell_obs_runs|].
    cbn [p Notebook.H tobs y R rng log].
    split; [now destruct (any_createH _ _ _)|].
    split; [now destruct (any_gen_obs _ _ _ _ _ _ _) as [[[? ?] ?] ?] | reflexivity].
Qed.

End Observations.

(** ** The assumptions can be met *)

(** The theorems above that assume shapes of the helpers' results hold of
    the helpers as modelled, with the stand-in generator. *)

Lemma B_from_one_long_run_holds :
  Notebook.run_shape Tools.lorenz96
  /\ exists c w',
      Notebook.cell_cov Z Tools.lorenz96 (Tools.getBcanadian Tools.first_times)
        (Notebook.model Tools.lorenz96) {| Notebook.rng := 0%Z; Notebook.log := [] |}
      = Some (c, w')
      /\ Notebook.lag c = 4%Z
      /\ Notebook.log w'
         = [Call "lorenz96"; Call "getBcanadian"; Call "tileplotB"].
Proof.
  split; [exact lorenz96_shape|].
  destruct (B_from_one_long_run Z Tools.lorenz96 Tools.first_times
              {| Notebook.rng := 0%Z; Notebook.log := [] |} lorenz96_shape)
    as [c [w' [Hcell [Hlog [_ [_ [Hlag _]]]]]]].
  exists c, w'. split; [exact Hcell|]. split; [exact Hlag | exact Hlog].
Defined.

Lemma lin_error_is_the_norm_of_the_discrepancy_holds :
  let r := Tools.compute_lin_error Tools.lorenz96 Tools.tangent_linear
             (Py.ones 12) Notebook.initial_state 8%float Notebook.lin_t_value 0.025%float in
  List.length (fst (fst r)) = Z.to_nat (100 + 1)
  /\ nth 100 (fst (fst r)) nan
     = Tools.norm2
         (Tools.vsub
            (Tools.vsub
               (Tools.col (Tools.lorenz96 (Tools.vadd Notebook.initial_state (Py.ones 12))
                             Notebook.lin_t_value 0.025%float 0 8%float) 100)
               (Tools.col (Tools.lorenz96 Notebook.initial_state
                             Notebook.lin_t_value 0.025%float 0 8%float) 100))
            (Tools.col (Tools.tangent_linear (Py.ones 12) Notebook.initial_state 8%float
                          Notebook.lin_t_value 0.025%float) 100)).
Proof.
  assert (HK : Py.int (Notebook.lin_t_value / 0.025)%float = Some 100%Z)
    by (vm_compute; reflexivity).
  destruct (lin_error_is_the_norm_of_the_discrepancy Tools.lorenz96 Tools.tangent_linear
              (Py.ones 12) Notebook.initial_state 8%float Notebook.lin_t_value 0.025%float
              100%Z 100%nat
              lorenz96_shape
              (tangent_linear_shape (Py.ones 12) Notebook.initial_state 8%float
                 Notebook.lin_t_value 0.025%float 100%Z HK)
              HK
              ltac:(lia)
              ltac:(vm_compute; reflexivity)
              ltac:(vm_compute; discriminate)
              ltac:(vm_compute; lia))
    as [Hlen [Hnth _]].
  split; [exact Hlen | exact Hnth].
Defined.

Lemma pipeline_runs_in_order_holds :
  exists ns w',
    Notebook.run_all Z Tools.lcg_multivariate_normal Tools.lorenz96
      (Tools.compute_lin_error Tools.lorenz96 Tools.tangent_linear)
      (Tools.getBcanadian Tools.first_times) Tools.createH_flat
      (Tools.gen_obs Z (fun seed _ => seed) Tools.lcg_normal)
      {| Notebook.rng := 0%Z; Notebook.log := [] |}
    = Some (ns, w')
    /\ Notebook.log w' = Notebook.pipeline_log.
Proof.
  destruct (pipeline_runs_in_order Z Tools.lcg_multivariate_normal Tools.lorenz96
              (Tools.compute_lin_error Tools.lorenz96 Tools.tangent_linear)
              (Tools.getBcanadian Tools.first_times) Tools.createH_flat
              (Tools.gen_obs Z (fun seed _ => seed) Tools.lcg_normal)
              {| Notebook.rng := 0%Z; Notebook.log := [] |}
              lcg_draws_shape lorenz96_shape (getBcanadian_shape Tools.first_times))
    as [[ns [w' [Hrun Hlog]]] _].
  exists ns, w'. split; [exact Hrun | exact Hlog].
Defined.

(** ** The order of floats *)

Section FloatOrder.

Local Open Scope float_scope.

Ltac sf_cases :=
  repeat match goal with
         | s : bool |- _ => destruct s
         end;
  simpl in *; try congruence;
  repeat match goal with
         | |- context [Z.compare ?a ?b] => destruct (Z.compare_spec a b); subst
         | H : context [Z.compare ?a ?b] |- _ => destruct (Z.compare_spec a b); subst
         | |- context [Pos.compare_cont Eq ?a ?b] =>
             change (Pos.compare_cont Eq a b) with (Pos.compare a b);
             destruct (Pos.compare_spec a b); subst
         | H : context [Pos.compare_cont Eq ?a ?b] |- _ =>
             change (Pos.compare_cont Eq a b) with (Pos.compare a b) in H;
             destruct (Pos.compare_spec a b); subst
         end;
  simpl in *; try congruence; try lia.

Lemma SFleb_refl (a : spec_float) : a <> S754_nan -> SFleb a a = true.
Proof. unfold SFleb. destruct a; intros H; sf_cases. Qed.

Lemma SFleb_total (a b : spec_float) :
  a <> S754_nan -> b <> S754_nan -> SFltb a b = false -> SFleb b a = true.
Proof. unfold SFleb, SFltb. destruct a, b; intros Ha Hb H; sf_cases. Qed.

Lemma SFleb_ltb_trans (v a y : spec_float) :
  SFleb v a = true -> SFltb a y = true -> SFleb v y = true.
Proof. unfold SFleb, SFltb. destruct v, a, y; intros H1 H2; sf_cases. Qed.

Lemma not_nan_spec (x : float) : is_nan x = false -> Prim2SF x <> S754_nan.
Proof.
  unfold is_nan. rewrite eqb_spec. intros H E. rewrite E in H. discriminate.
Qed.

Lemma leb_refl (x : float) : is_nan x = false -> (x <=? x) = true.
Proof. intros H. rewrite leb_spec. now apply SFleb_refl, not_nan_spec. Qed.

Lemma leb_total (x y : float) :
  is_nan x = false -> is_nan y = false -> (x <? y) = false -> (y <=? x) = true.
Proof.
  intros Hx Hy. rewrite ltb_spec, leb_spec.
  apply SFleb_total; now apply not_nan_spec.
Qed.

Lemma leb_ltb_trans (v a y : float) :
  (v <=? a) = true -> (a <? y) = true -> (v <=? y) = true.
Proof. rewrite !leb_spec, ltb_spec. apply SFleb_ltb_trans. Qed.

End FloatOrder.

(** ** The largest entry *)

Section Largest.

Import Py.
Local Open Scope float_scope.

Lemma fmax_choice (x y : float) : fmax x y = x \/ fmax x y = y.
Proof.
  unfold fmax. destruct (is_nan x); [now left|].
  destruct (is_nan y); [now right|].
  destruct (x <? y); [now right | now left].
Qed.

Lemma fold_fmax_in (r : vec) (v : float) : In (fold_left fmax r v) (v :: r).
Proof.
  revert v. induction r as [|y r IH]; intros v; simpl; [now left|].
  destruct (IH (fmax v y)) as [E | Hin]; [|now right; right].
  rewrite <- E. destruct (fmax_choice v y) as [-> | ->]; [now left | now right; left].
Qed.

(** A nan, once met, is the result. *)
Lemma fold_fmax_nan_acc (r : vec) (v : float) :
  is_nan v = true -> is_nan (fold_left fmax r v) = true.
Proof.
  revert v. induction r as [|y r IH]; intros v Hv; simpl; [exact Hv|].
  apply IH. unfold fmax. now rewrite Hv.
Qed.

Lemma fold_fmax_nan (r : vec) (v : float) :
  existsb is_nan (v :: r) = true -> is_nan (fold_left fmax r v) = true.
Proof.
  revert v. induction r as [|y r IH]; intros v H; simpl in *.
  - now rewrite orb_false_r in H.
  - destruct (is_nan v) eqn:Hv.
    + apply fold_fmax_nan_acc. unfold fmax. now rewrite Hv.
    + apply IH. simpl in H. unfold fmax. rewrite Hv.
      destruct (is_nan y) eqn:Hy; [simpl; now rewrite Hy|].
      simpl in H. destruct (v <? y); simpl; [now rewrite Hy | now rewrite Hv].
Qed.

(** Without nan the result is an upper bound of what was folded. *)
Lemma fold_fmax_bound (r : vec) (v : float) :
  is_nan v = false -> forallb (fun y => negb (is_nan y)) r = true ->
  forall u, (u <=? v) = true \/ In u r -> (u <=? fold_left fmax r v) = true.
Proof.
  revert v. induction r as [|y r IH]; intros v Hv Hr u Hu; simpl in *.
  - destruct Hu as [Hu | []]. exact Hu.
  - apply andb_prop in Hr. destruct Hr as [Hy Hr].
    apply negb_true_iff in Hy.
    assert (Hm : is_nan (fmax v y) = false).
    { destruct (fmax_choice v y) as [-> | ->]; assumption. }
    apply (IH (fmax v y) Hm Hr).
    unfold fmax. rewrite Hv, Hy.
    destruct (v <? y) eqn:Hlt.
    + destruct Hu as [Hu | [<- | Hin]].
      * left. now apply (leb_ltb_trans u v y).
      * left. now apply leb_refl.
      * now right.
    + destruct Hu as [Hu | [<- | Hin]].
      * now left.
      * left. now apply leb_total.
      * now right.
Qed.

Lemma amax_largest (x : vec) (top : float) :
  amax x = Some top ->
  In top x
  /\ (existsb is_nan x = true -> is_nan top = true)
  /\ (existsb is_nan x = false -> forall v, In v x -> (v <=? top) = true).
Proof.
  destruct x as [|v r]; [discriminate|]. simpl amax. intros E. injection E as <-.
  split; [apply fold_fmax_in|]. split; [apply fold_fmax_nan|].
  intros Hn u Hu. simpl in Hn. apply orb_false_elim in Hn. destruct Hn as [Hv Hr].
  apply fold_fmax_bound; [exact Hv | |].
  - apply forallb_forall. intros y Hy. apply negb_true_iff.
    destruct (is_nan y) eqn:Ey; [|reflexivity].
    assert (existsb is_nan r = true) by (apply existsb_exists; now exists y).
    congruence.
  - destruct Hu as [<- | Hin]; [left; now apply leb_refl | now right].
Qed.

End Largest.

(** ** More about the cells *)

Section SampleCell.

Import Py Notebook.
Local Open Scope float_scope.

Variable G : Type.
Variable multivariate_normal : vec -> mat -> Z -> G -> mat * G.
Variable lorenz96 : vec -> float -> float -> Z -> float -> mat.
Variable compute_lin_error : vec -> vec -> float -> float -> float -> vec * mat * mat.
Variable getBcanadian : mat -> Z -> option float -> Z -> mat * mat.

Local Abbreviation m := (model lorenz96).

(** What [set_plane] stores and what it leaves. *)
Lemma set_plane_stores (ps : arr3) (j : nat) (a : mat) (ps' : arr3) :
  set_plane ps j a = Some ps' ->
  nth_error ps' j = Some a /\ forall k, k <> j -> nth_error ps' k = nth_error ps k.
Proof.
  revert j ps'. induction ps as [|old rest IH]; intros j ps' E; simpl in E; [discriminate|].
  destruct j as [|j].
  - destruct (shape_is a _ _); [|discriminate]. injection E as <-.
    split; [reflexivity|]. intros [|k] Hk; [contradiction | reflexivity].
  - destruct (set_plane rest j a) as [rest'|] eqn:Er; [|discriminate].
    injection E as <-. destruct (IH j rest' Er) as [Hj Hk].
    split; [exact Hj|]. intros [|k] Hne; [reflexivity|]. simpl. apply Hk. lia.
Qed.

(** One pass of the loop stores the run started at column [i] of the
    sample in plane [i] and leaves the other planes. *)
Lemma propagate_stores (sample : mat) (i : nat) (ps : arr3) (w : world G) :
  run_shape lorenz96 ->
  has_shape sample 12 5000 -> (i < 5000)%nat ->
  List.length ps = 5000%nat -> Forall (plane_dims 12 101) ps ->
  exists x ps',
    column sample i = Some x
    /\ propagate G lorenz96 m sample lin_t_value i ps w
       = Some (ps', after w [Call "lorenz96"])
    /\ List.length ps' = 5000%nat /\ Forall (plane_dims 12 101) ps'
    /\ nth_error ps' i = Some (lorenz96 x lin_t_value 0.025 0 8.0)
    /\ forall k, k <> i -> nth_error ps' k = nth_error ps k.
Proof.
  intros Hrun Hs Hi Hlen Hps.
  destruct (column_in_range sample 12 5000 i Hs Hi) as [x [Hx Hxl]].
  assert (Hr : has_shape (lorenz96 x lin_t_value 0.025 0 8.0) 12 101).
  { pose proof (Hrun x lin_t_value 0.025 0%Z 8.0 100%Z) as Hr.
    rewrite Hxl in Hr. apply Hr. vm_compute. reflexivity. }
  destruct (set_plane_in_range 11 101 ps i _ ltac:(lia) Hps Hr) as [ps' [E [Hl Hall]]].
  destruct (set_plane_stores ps i _ ps' E) as [Hi' Hk].
  exists x, ps'. split; [exact Hx|]. split.
  - unfold propagate, bind, lift, call, emit, ret. rewrite Hx. simpl. now rewrite E.
  - split; [lia|]. split; [exact Hall|]. split; [exact Hi' | exact Hk].
Qed.

(** The loop invariant: after [count] passes from [i], the planes from [i]
    to [i + count - 1] hold the runs of their columns and the others are as
    they were. *)
Lemma propagate_loop_stores (sample : mat) (count i : nat) (ps : arr3) (w : world G) :
  run_shape lorenz96 ->
  has_shape sample 12 5000 -> (i + count <= 5000)%nat ->
  List.length ps = 5000%nat -> Forall (plane_dims 12 101) ps ->
  exists ps',
    for_range (propagate G lorenz96 m sample lin_t_value) i count ps w
    = Some (ps', after w (List.repeat (Call "lorenz96") count))
    /\ List.length ps' = 5000%nat /\ Forall (plane_dims 12 101) ps'
    /\ (forall j, (i <= j < i + count)%nat ->
          exists x, column sample j = Some x
                    /\ nth_error ps' j = Some (lorenz96 x lin_t_value 0.025 0 8.0))
    /\ (forall j, (j < i \/ i + count <= j)%nat -> nth_error ps' j = nth_error ps j).
Proof.
  intros Hrun Hs. revert i ps w.
  induction count as [|count IH]; intros i ps w Hi Hlen Hps.
  - exists ps. simpl. unfold ret, after. rewrite app_nil_r.
    split; [now destruct w|]. split; [exact Hlen|]. split; [exact Hps|].
    split; [intros j Hj; lia | reflexivity].
  - destruct (propagate_stores sample i ps w Hrun Hs ltac:(lia) Hlen Hps)
      as [x [ps1 [Hx [E1 [Hl1 [Hp1 [Hi1 Hk1]]]]]]].
    destruct (IH (S i) ps1 (after w [Call "lorenz96"]) ltac:(lia) Hl1 Hp1)
      as [ps2 [E2 [Hl2 [Hp2 [Hin Hout]]]]].
    exists ps2. split.
    { simpl. unfold bind. rewrite E1, E2. now rewrite after_after. }
    split; [exact Hl2|]. split; [exact Hp2|]. split.
    + intros j Hj. destruct (Nat.eq_dec j i) as [-> | Hne].
      * exists x. split; [exact Hx|]. rewrite Hout by lia. exact Hi1.
      * apply Hin. lia.
    + intros j Hj. rewrite Hout by lia. apply Hk1. lia.
Qed.

(** X1.  The sample cell completes when the draw and the runs have the shapes
    the cell indexes.  It then leaves the transposed draw in [sample_t0],
    [lin_t = 2.5], and in [prop_sample] 5000 planes of 12 rows and 101
    columns, plane [i] being the run of [lorenz96] from column [i] of the
    sample over [lin_t] with no step discarded; the generator is left as the
    one draw left it. *)
Theorem sample_planes_are_the_runs (w : world G) :
  draws_shape multivariate_normal -> run_shape lorenz96 ->
  exists s w',
    cell_sample G multivariate_normal lorenz96 m w = Some (s, w')
    /\ rng w' = snd (multivariate_normal (zeros 12) (eye 12) 5000 (rng w))
    /\ sample_t0 s = transpose (fst (multivariate_normal (zeros 12) (eye 12) 5000 (rng w)))
    /\ has_shape (sample_t0 s) 12 5000
    /\ lin_t s = 2.5
    /\ List.length (prop_sample s) = 5000%nat
    /\ Forall (plane_dims 12 101) (prop_sample s)
    /\ forall i, (i < 5000)%nat ->
         exists x, column (sample_t0 s) i = Some x
                   /\ nth_error (prop_sample s) i
                      = Some (lorenz96 x (lin_t s) (deltat m) 0 (F m)).
Proof.
  intros Hdraws Hrun.
  unfold cell_sample, call_random, emit, bind.
  cbn [fst snd rng log n deltat F model].
  pose proof (Hdraws (zeros 12) (eye 12) 5000%Z (rng w)) as Hs.
  destruct (multivariate_normal _ _ _ _) as [smp g].
  cbn [fst snd] in *.
  change (List.length (zeros 12)) with 12%nat in Hs.
  change (Z.to_nat 5000) with 5000%nat in *.
  assert (Hk : int (float_of_Z 100 * 0.025 / 0.025) = Some 100%Z)
    by (vm_compute; reflexivity).
  unfold lift at 1. rewrite Hk.
  pose proof (transpose_shape smp 4999 12 Hs) as Ht.
  pose proof (zeros3_dims 12 (100 + 1) 5000 ltac:(lia)) as Hz.
  change (Z.to_nat 12) with 12%nat in Hz. change (Z.to_nat (100 + 1)) with 101%nat in Hz.
  destruct (propagate_loop_stores (transpose smp) 5000 0 (zeros3 12 (100 + 1) 5000)
              {| rng := g; log := log w ++ [Call "np.random.multivariate_normal"] |}
              Hrun Ht ltac:(lia)
              ltac:(unfold zeros3; now rewrite repeat_length) Hz)
    as [ps [Eloop [Hlen [Hdims [Hin _]]]]].
  fold lin_t_value. rewrite Eloop.
  eexists. eexists. split; [reflexivity|].
  cbn [rng after sample_t0 lin_t prop_sample].
  split; [reflexivity|]. split; [reflexivity|]. split; [exact Ht|].
  split; [apply float_eq; vm_compute; reflexivity|].
  split; [exact Hlen|]. split; [exact Hdims|].
  intros i Hi. apply Hin. lia.
Qed.

End SampleCell.

Section CellFacts.

Import Py Notebook.
Local Open Scope float_scope.

Variable G : Type.
Variable multivariate_normal : vec -> mat -> Z -> G -> mat * G.
Variable lorenz96 : vec -> float -> float -> Z -> float -> mat.
Variable compute_lin_error : vec -> vec -> float -> float -> float -> vec * mat * mat.
Variable getBcanadian : mat -> Z -> option float -> Z -> mat * mat.

Local Abbreviation m := (model lorenz96).

(** X2.  The time grid and the truth run fit: when [lorenz96] returns one column
    per step from [0] to [int(tf/deltat)], the array [t] that the cell
    builds with arange has one entry per column of [xtrue], and [x0] and
    [xtrue] have one entry and one row per variable. *)
Theorem grid_fits_the_truth_run (w : world G) :
  run_shape lorenz96 ->
  exists v w',
    cell_model G lorenz96 w = Some (v, w')
    /\ int (tf v / deltat v) = Some 200%Z
    /\ List.length (t v) = Z.to_nat (200 + 1)
    /\ List.length (x0 v) = Z.to_nat (n v)
    /\ has_shape (xtrue v) (Z.to_nat (n v)) (List.length (t v))
    /\ ncols (xtrue v) = List.length (t v).
Proof.
  intros Hrun. exists m. eexists. split; [apply cell_model_runs|].
  pose proof (xtrue_shape lorenz96 Hrun) as Hx.
  split; [vm_compute; reflexivity|].
  split; [vm_compute; reflexivity|].
  split; [vm_compute; reflexivity|].
  assert (Ht : List.length (t m) = 201%nat) by (vm_compute; reflexivity).
  rewrite Ht. change (Z.to_nat (n m)) with 12%nat.
  split; [exact Hx | exact (ncols_shape _ 11 201 Hx)].
Qed.

(** X3.  The call of [compute_lin_error] is well formed: the increment is a
    vector of twelve ones, the state is the first column of the truth run
    and has twelve entries too, and the time [lin_t] that the sample cell
    left is 100 steps of [deltat]; the cell leaves the three results of
    that call. *)
Theorem lin_error_call_is_well_formed (w : world G) :
  draws_shape multivariate_normal -> run_shape lorenz96 ->
  exists s w1 l w2 x,
    cell_sample G multivariate_normal lorenz96 m w = Some (s, w1)
    /\ cell_linerr G compute_lin_error m s w1 = Some (l, w2)
    /\ column (xtrue m) 0 = Some x
    /\ List.length x = 12%nat
    /\ Delta_x l = List.repeat 1 12
    /\ List.length (Delta_x l) = List.length x
    /\ int (lin_t s / deltat m) = Some 100%Z
    /\ (lin_error l, NLdiff l, TLdiff l)
       = compute_lin_error (Delta_x l) x (F m) (lin_t s) (deltat m).
Proof.
  intros Hdraws Hrun.
  destruct (cell_sample_runs G multivariate_normal lorenz96 w Hdraws Hrun)
    as [s [Es Hlin]].
  destruct (column_in_range (xtrue m) 12 201 0 (xtrue_shape lorenz96 Hrun) ltac:(lia))
    as [x [Hx Hlen]].
  exists s. eexists. eexists. eexists. exists x.
  split; [exact Es|]. split.
  { unfold cell_linerr, call, emit, lift, ret, bind. rewrite Hx. reflexivity. }
  cbn [Delta_x lin_error NLdiff TLdiff].
  split; [exact Hx|]. split; [exact Hlen|]. split; [reflexivity|].
  split; [rewrite Hlen; reflexivity|].
  split; [rewrite Hlin; vm_compute; reflexivity|].
  now destruct (compute_lin_error _ _ _ _ _) as [[? ?] ?].
Qed.

Local Abbreviation B_value :=
  (fst (getBcanadian (lorenz96 initial_state forecast_length 0.025 150%Z 8.0)
          4%Z None 10000%Z)).

(** X4.  The colour range of the plot of B.  When the diagonal of B is empty
    the cell raises ([np.amax] of an empty array).  Otherwise it completes
    with [vs = [-top, top]], a range symmetric about zero whose bound [top]
    is an entry of the diagonal: nan as soon as one variance is nan, and
    otherwise a variance that no other exceeds. *)
Theorem colour_range_covers_the_variances (w : world G) :
  match diag B_value with
  | [] => cell_cov G lorenz96 getBcanadian m w = None
  | _ :: _ =>
      exists c w' top,
        cell_cov G lorenz96 getBcanadian m w = Some (c, w')
        /\ B c = B_value
        /\ vs c = [- top; top]
        /\ In top (diag (B c))
        /\ (existsb is_nan (diag (B c)) = true -> is_nan top = true)
        /\ (existsb is_nan (diag (B c)) = false ->
            forall v, In v (diag (B c)) -> (v <=? top) = true)
  end.
Proof.
  unfold cell_cov, call, emit, ret, bind.
  cbn [deltat x0 discard F model]. unfold lift at 1. rewrite lag_value.
  fold forecast_length. cbn [rng log fst snd].
  destruct (diag B_value) as [|v r] eqn:Ed.
  - reflexivity.
  - unfold lift. rewrite Ed.
    destruct (amax (v :: r)) as [top|] eqn:Etop; [|discriminate].
    destruct (amax_largest (v :: r) top Etop) as [Hin [Hnan Hmax]].
    eexists. eexists. exists top. split; [reflexivity|].
    cbn [B vs]. split; [reflexivity|]. split; [reflexivity|].
    rewrite Ed. split; [exact Hin|]. split; [exact Hnan | exact Hmax].
Qed.

(** X5.  The indices handed to the density plots are inside [prop_sample]: the
    time steps [times] are columns of its planes (which have 101, for the
    steps 0 to 100), and the variables [var1D] and [vars2D] are rows (there
    are 12). *)
Theorem plotted_indices_are_in_range (w : world G) :
  draws_shape multivariate_normal -> run_shape lorenz96 ->
  exists s u v w1 w2 w3,
    cell_sample G multivariate_normal lorenz96 m w = Some (s, w1)
    /\ cell_uni G s w1 = Some (u, w2)
    /\ cell_multi G s u w2 = Some (v, w3)
    /\ Forall (plane_dims 12 101) (prop_sample s)
    /\ Forall (fun k => 0 <= k < 101)%Z (times u)
    /\ (0 <= var1D u < 12)%Z
    /\ Forall (fun i => 0 <= i < 12)%Z (vars2D v).
Proof.
  intros Hdraws Hrun.
  destruct (cell_sample_runs G multivariate_normal lorenz96 w Hdraws Hrun) as [s [Es _]].
  pose proof Es as Es'.
  unfold cell_sample, call_random, emit, bind in Es'.
  cbn [fst snd rng log n deltat F model] in Es'.
  pose proof (Hdraws (zeros 12) (eye 12) 5000%Z (rng w)) as Hs.
  destruct (multivariate_normal _ _ _ _) as [smp g].
  cbn [fst snd] in *.
  change (List.length (zeros 12)) with 12%nat in Hs.
  change (Z.to_nat 5000) with 5000%nat in *.
  assert (Hk : int (float_of_Z 100 * 0.025 / 0.025) = Some 100%Z)
    by (vm_compute; reflexivity).
  unfold lift at 1 in Es'. rewrite Hk in Es'.
  pose proof (transpose_shape smp 4999 12 Hs) as Ht.
  pose proof (zeros3_dims 12 (100 + 1) 5000 ltac:(lia)) as Hz.
  change (Z.to_nat 12) with 12%nat in Hz. change (Z.to_nat (100 + 1)) with 101%nat in Hz.
  destruct (propagate_loop G lorenz96 (transpose smp) 5000 0 (zeros3 12 (100 + 1) 5000)
              {| rng := g; log := log w ++ [Call "np.random.multivariate_normal"] |}
              Hrun Ht ltac:(lia)
              ltac:(unfold zeros3; now rewrite repeat_length) Hz)
    as [ps [Eloop [_ Hdims]]].
  fold lin_t_value in Es'. rewrite Eloop in Es'. unfold ret in Es'.
  injection Es' as Hs' _.
  eexists s, _, _, _, _, _.
  split; [exact Es|]. split; [reflexivity|]. split; [reflexivity|].
  split; [rewrite <- Hs'; exact Hdims|].
  cbn [times var1D vars2D].
  split; [repeat constructor; lia|]. split; [lia|]. repeat constructor; lia.
Qed.

End CellFacts.

(** ** Names are not given a second value *)

Section Rebinding.

Import Source.
Local Open Scope string_scope.

(** X6.  Counting the statements of the text that bind a name or store
    into it: more than one does so only for the five plotting functions that
    the observation cell imports again, each from the one module
    [tools.plots], and for [x0] and [prop_sample], each bound by one
    assignment and then stored into by one statement of the same cell.  So
    the names bound by two statements are the five re-imports alone, and
    every parameter and every result of a helper is bound by one statement;
    the loop variable [i] is bound by the head of the loop alone (which
    gives it a value on each pass). *)
Theorem only_updates_and_reimports_rebind :
  rebound = ["plotL96"; "plotL96obs"; "plotL96_Linerr"; "plotH"; "tileplotB";
             "x0"; "prop_sample"]
  /\ bound_twice = ["plotL96"; "plotL96obs"; "plotL96_Linerr"; "plotH"; "tileplotB"]
  /\ forallb (fun v => forallb (is_kind Import_stmt) (binders v)
                      && match modules_of v with [_] => true | _ => false end)
             ["plotL96"; "plotL96obs"; "plotL96_Linerr"; "plotH"; "tileplotB"] = true
  /\ forallb (fun v => match binders v with
                      | [first; second] =>
                          is_kind Assign first && negb (updates_in_place first)
                          && updates_in_place second
                          && Nat.eqb (cell first) (cell second)
                      | _ => false
                      end) ["x0"; "prop_sample"] = true
  /\ map (fun s => (cell s, kind s)) (binders "i") = [(7%nat, For_stmt)].
Proof. repeat split; vm_compute; reflexivity. Qed.

End Rebinding.

(** ** The assumptions of the cell properties can be met *)

Lemma sample_planes_are_the_runs_holds :
  Notebook.draws_shape Tools.lcg_multivariate_normal
  /\ Notebook.run_shape Tools.lorenz96
  /\ exists s w',
      Notebook.cell_sample Z Tools.lcg_multivariate_normal Tools.lorenz96
        (Notebook.model Tools.lorenz96) {| Notebook.rng := 0%Z; Notebook.log := [] |}
      = Some (s, w')
      /\ List.length (Notebook.prop_sample s) = Z.to_nat 5000
      /\ Forall (Py.plane_dims 12 101) (Notebook.prop_sample s).
Proof.
  split; [exact lcg_draws_shape|]. split; [exact lorenz96_shape|].
  destruct (sample_planes_are_the_runs Z Tools.lcg_multivariate_normal Tools.lorenz96
              {| Notebook.rng := 0%Z; Notebook.log := [] |}
              lcg_draws_shape lorenz96_shape)
    as [s [w' [Hcell [_ [_ [_ [_ [Hlen [Hdims _]]]]]]]]].
  exists s, w'. split; [exact Hcell|]. split; [exact Hlen | exact Hdims].
Defined.

Lemma grid_fits_the_truth_run_holds :
  exists v w',
    Notebook.cell_model Z Tools.lorenz96 {| Notebook.rng := 0%Z; Notebook.log := [] |}
    = Some (v, w')
    /\ Py.ncols (Notebook.xtrue v) = List.length (Notebook.t v).
Proof.
  destruct (grid_fits_the_truth_run Z Tools.lorenz96
              {| Notebook.rng := 0%Z; Notebook.log := [] |} lorenz96_shape)
    as [v [w' [Hcell [_ [_ [_ [_ Hfit]]]]]]].
  exists v, w'. split; [exact Hcell | exact Hfit].
Defined.

Lemma lin_error_call_is_well_formed_holds :
  exists s w1 l w2,
    Notebook.cell_sample Z Tools.lcg_multivariate_normal Tools.lorenz96
      (Notebook.model Tools.lorenz96) {| Notebook.rng := 0%Z; Notebook.log := [] |}
    = Some (s, w1)
    /\ Notebook.cell_linerr Z (Tools.compute_lin_error Tools.lorenz96 Tools.tangent_linear)
         (Notebook.model Tools.lorenz96) s w1
       = Some (l, w2)
    /\ Py.int (Notebook.lin_t s / Notebook.deltat (Notebook.model Tools.lorenz96))%float
       = Some 100%Z.
Proof.
  destruct (lin_error_call_is_well_formed Z Tools.lcg_multivariate_normal Tools.lorenz96
              (Tools.compute_lin_error Tools.lorenz96 Tools.tangent_linear)
              {| Notebook.rng := 0%Z; Notebook.log := [] |}
              lcg_draws_shape lorenz96_shape)
    as [s [w1 [l [w2 [x [Hs [Hl [_ [_ [_ [_ [Hk _]]]]]]]]]]]].
  exists s, w1, l, w2. split; [exact Hs|]. split; [exact Hl | exact Hk].
Defined.

Lemma plotted_indices_are_in_range_holds :
  exists s u v w1 w2 w3,
    Notebook.cell_sample Z Tools.lcg_multivariate_normal Tools.lorenz96
      (Notebook.model Tools.lorenz96) {| Notebook.rng := 0%Z; Notebook.log := [] |}
    = Some (s, w1)
    /\ Notebook.cell_uni Z s w1 = Some (u, w2)
    /\ Notebook.cell_multi Z s u w2 = Some (v, w3)
    /\ Forall (fun k => 0 <= k < 101)%Z (Notebook.times u).
Proof.
  destruct (plotted_indices_are_in_range Z Tools.lcg_multivariate_normal Tools.lorenz96
              {| Notebook.rng := 0%Z; Notebook.log := [] |}
              lcg_draws_shape lorenz96_shape)
    as [s [u [v [w1 [w2 [w3 [Hs [Hu [Hv [_ [Ht _]]]]]]]]]]].
  exists s, u, v, w1, w2, w3.
  split; [exact Hs|]. split; [exact Hu|]. split; [exact Hv | exact Ht].
Defined.
